(** * Product Catalog API: a shallow embedding of [catalog_api]

    The development follows the layout of the application:
    - [Py]          the Python built-ins the views rely on ([int], [str],
                    [str.strip], [str.split]);
    - [Models]      [models.py]: the [Category] and [Product] records and the
                    relational store;
    - [Http]        requests and responses as the views see them;
    - [Permissions] [permissions.py]: [HasAPIKeyForWriteOperations];
    - [Filters]     [filters.py]: [ProductFilter];
    - [Views]       [views.py]: [ProductViewSet.purchase], and the list
                    action with its two filter backends;
    - [Concurrent]  the purchase action as two store accesses per request,
                    interleaved between requests.
    The properties follow, one module per part of the application.

    Integers are Python integers ([Z]); decimals are exact rationals ([Q]);
    strings are byte strings; tables are finite maps keyed by primary key. *)

From Stdlib Require Import ZArith QArith List String Ascii Bool Lia.
From Stdlib Require Import Sorting Permutation DecimalString.
From stdpp Require Import gmap strings list fin_maps.

#[local] Set Warnings "-clear-no-such-hyp".
Local Open Scope Z_scope.

(* ===================================================================== *)
(** ** Python built-ins *)
(* ===================================================================== *)

Module Py.

(** Exceptions raised by the built-ins used in the views. *)
Inductive exn := ValueError | TypeError | OverflowError.

(** A Python [float]: every finite double is a rational; the two infinities
    are kept apart because [int] rejects them. *)
Inductive pyfloat :=
| FFinite (q : Q)
| FInf (negative : bool).

(** A value found in [request.data] (a parsed JSON or form body). *)
#[local] Unset Elimination Schemes.
Inductive json :=
| JNull
| JBool (b : bool)
| JInt (n : Z)
| JFloat (x : pyfloat)
| JString (s : string)
| JArray (items : list json)
| JObject (members : list (string * json)).
#[local] Set Elimination Schemes.

(** [str(n)] for an integer, also what an f-string prints for it. *)
Definition str (n : Z) : string := NilZero.string_of_int (Z.to_int n).

(** ASCII white space as [str.isspace] sees it: TAB, LF, VT, FF, CR,
    FS, GS, RS, US and SPACE. *)
Definition isspace (c : ascii) : bool :=
  let n := nat_of_ascii c in
  ((9 <=? n)%nat && (n <=? 13)%nat) || ((28 <=? n)%nat && (n <=? 32)%nat).

Fixpoint lstrip (l : list ascii) : list ascii :=
  match l with
  | c :: r => if isspace c then lstrip r else l
  | [] => []
  end.

Definition rstrip (l : list ascii) : list ascii := rev (lstrip (rev l)).

(** [s.strip()] *)
Definition strip (s : string) : string :=
  string_of_list_ascii (rstrip (lstrip (list_ascii_of_string s))).

(** [s.split(",")]: never empty, one more piece than there are commas. *)
Fixpoint split_comma (s : string) : list string :=
  match s with
  | EmptyString => [EmptyString]
  | String c r =>
      if Ascii.eqb c ","%char then EmptyString :: split_comma r
      else match split_comma r with
           | p :: ps => String c p :: ps
           | [] => [String c EmptyString]
           end
  end.

(** [s.startswith("-")] *)
Definition startswith_minus (s : string) : bool :=
  match s with
  | String c _ => Ascii.eqb c "-"%char
  | EmptyString => false
  end.

Definition isdigit (c : ascii) : bool :=
  let n := nat_of_ascii c in (48 <=? n)%nat && (n <=? 57)%nat.

Definition digit_value (c : ascii) : Z := Z.of_nat (nat_of_ascii c) - 48.

(** What the digit scanner of [int(str)] saw last. *)
Inductive prev_char := PStart | PDigit | PUnderscore.

(** The digit scanner of [int(str)] in base 10: digits, with single
    underscores allowed between two digits.  Returns the value and the number
    of digit characters. *)
Fixpoint scan_digits (prev : prev_char) (acc : Z) (digits : nat)
    (l : list ascii) : option (Z * nat) :=
  match l with
  | [] => match prev with PDigit => Some (acc, digits) | _ => None end
  | c :: r =>
      if isdigit c then
        scan_digits PDigit (10 * acc + digit_value c) (S digits) r
      else if Ascii.eqb c "_"%char then
        match prev with
        | PDigit => scan_digits PUnderscore acc digits r
        | _ => None
        end
      else None
  end.

(** [sys.get_int_max_str_digits()]: the default limit on the number of digits
    [int(str)] accepts. *)
Definition int_max_str_digits : nat := 4300.

(** [int(s)] for a string: white space is stripped, an optional sign is
    read, then the digits; anything else is a [ValueError]. *)
Definition int_of_string (s : string) : option Z :=
  let body := rstrip (lstrip (list_ascii_of_string s)) in
  let '(negative, ds) :=
    match body with
    | c :: r =>
        if Ascii.eqb c "-"%char then (true, r)
        else if Ascii.eqb c "+"%char then (false, r)
        else (false, body)
    | [] => (false, body)
    end in
  match scan_digits PStart 0 0 ds with
  | Some (v, digits) =>
      if (int_max_str_digits <? digits)%nat then None
      else Some (if negative then - v else v)
  | None => None
  end.

(** [int(x)] for a finite float: truncation towards zero. *)
Definition trunc (q : Q) : Z := Z.quot (Qnum q) (Zpos (Qden q)).

Inductive int_result :=
| IntOk (n : Z)
| IntRaise (e : exn).

(** [int(v)] for a value of the request body.  [None] is handled by the
    caller before [int] is reached; here it is a [TypeError] like the
    containers. *)
Definition int (v : json) : int_result :=
  match v with
  | JInt n => IntOk n
  | JBool b => IntOk (if b then 1 else 0)
  | JFloat (FFinite q) => IntOk (trunc q)
  | JFloat (FInf _) => IntRaise OverflowError
  | JString s =>
      match int_of_string s with
      | Some n => IntOk n
      | None => IntRaise ValueError
      end
  | JNull | JArray _ | JObject _ => IntRaise TypeError
  end.

End Py.

(* ===================================================================== *)
(** ** models.py *)
(* ===================================================================== *)

Module Category.

Record t := mk {
  name : string;                 (* CharField(max_length=255, unique=True) *)
  description : option string;   (* TextField(blank=True, null=True) *)
  created_at : Z;                (* DateTimeField(auto_now_add=True) *)
  updated_at : Z                 (* DateTimeField(auto_now=True) *)
}.

End Category.

Module Product.

Record t := mk {
  name : string;                 (* CharField(max_length=255, unique=True) *)
  description : option string;   (* TextField(blank=True, null=True) *)
  price : Q;                     (* DecimalField(max_digits=10, decimal_places=2) *)
  stock_quantity : Z;            (* PositiveIntegerField(default=0) *)
  image_url : option string;     (* URLField(blank=True, null=True) *)
  is_featured : bool;            (* BooleanField(default=False) *)
  category : option Z;           (* ForeignKey(Category, SET_NULL, null=True) *)
  created_at : Z;                (* DateTimeField(auto_now_add=True) *)
  updated_at : Z                 (* DateTimeField(auto_now=True) *)
}.

(** Attribute assignment [product.stock_quantity = n]. *)
Definition set_stock_quantity (n : Z) (p : t) : t :=
  mk (name p) (description p) (price p) n (image_url p) (is_featured p)
     (category p) (created_at p) (updated_at p).

(** What [auto_now=True] does to the instance when it is saved. *)
Definition touch (now : Z) (p : t) : t :=
  mk (name p) (description p) (price p) (stock_quantity p) (image_url p)
     (is_featured p) (category p) (created_at p) now.

End Product.

Module Models.

(** The database: one table per model, keyed by primary key, and the table of
    issued API keys consulted by the permission class. *)
Record store := mk_store {
  products : gmap Z Product.t;
  categories : gmap Z Category.t;
  api_keys : gset string
}.

Definition set_products (ps : gmap Z Product.t) (st : store) : store :=
  mk_store ps (categories st) (api_keys st).

(** [product.save()]: every column of the row [pk] is written from the
    instance, [updated_at] being set to the current time. *)
Definition save (now : Z) (pk : Z) (p : Product.t) (st : store) : store :=
  set_products (<[pk := Product.touch now p]> (products st)) st.

(** The column constraint of [PositiveIntegerField]. *)
Definition stock_nonneg (st : store) : Prop :=
  ∀ pk p, products st !! pk = Some p → 0 <= Product.stock_quantity p.

End Models.

(* ===================================================================== *)
(** ** Requests and responses *)
(* ===================================================================== *)

Module Http.

Inductive method := GET | HEAD | OPTIONS | POST | PUT | PATCH | DELETE.

#[global] Instance method_eq_dec : EqDecision method.
Proof. solve_decision. Defined.

(** What a view reads from a request: the verb, the API key presented in the
    [Authorization] header (if any), the parsed body and the query string. *)
Record request := mk_request {
  method_of : method;
  api_key : option string;
  data : gmap string Py.json;
  query_params : gmap string string
}.

(** The payload handed to [Response]. *)
Inductive body :=
| Detail (detail : string)                      (* {"detail": ...} *)
| ProductData (pk : Z) (fields : Product.t)       (* serializer.data *)
| ProductList (rows : list (Z * Product.t))       (* many=True *)
| FieldErrors.                                  (* an invalid filter form *)

Definition HTTP_200_OK : Z := 200.
Definition HTTP_400_BAD_REQUEST : Z := 400.
Definition HTTP_403_FORBIDDEN : Z := 403.
Definition HTTP_404_NOT_FOUND : Z := 404.

(** The outcome of a handler: a [Response], or an exception that no handler
    catches (the framework turns it into a server error). *)
Inductive result :=
| Response (payload : body) (status : Z)
| Unhandled (e : Py.exn).

Definition status_of (r : result) : option Z :=
  match r with
  | Response _ s => Some s
  | Unhandled _ => None
  end.

End Http.

(* ===================================================================== *)
(** ** permissions.py *)
(* ===================================================================== *)

Module Permissions.
Import Http Models.

(** [rest_framework.permissions.SAFE_METHODS] *)
Definition SAFE_METHODS : list method := [GET; HEAD; OPTIONS].

(** [HasAPIKey().has_permission]: a key is presented and it is one of the
    issued (valid) keys. *)
Definition HasAPIKey (request : request) (st : store) : bool :=
  match api_key request with
  | Some key => bool_decide (key ∈ api_keys st)
  | None => false
  end.

(** [HasAPIKeyForWriteOperations.has_permission] *)
Definition has_permission (request : request) (st : store) : bool :=
  if bool_decide (method_of request ∈ SAFE_METHODS) then true
  else HasAPIKey request st.

Definition permission_denied : result :=
  Response (Detail "Authentication credentials were not provided.")
           HTTP_403_FORBIDDEN.

(** Modelled from the spec: the project settings, which are not among the
    sources, install [HasAPIKeyForWriteOperations] in front of every view
    (the access-control gate of the spec, 403 in the tests).  The handler is
    run only once the permission is granted. *)
Definition dispatch (handler : request → store → result * store)
    (request : request) (st : store) : result * store :=
  if has_permission request st then handler request st
  else (permission_denied, st).

End Permissions.

(* ===================================================================== *)
(** ** filters.py *)
(* ===================================================================== *)

Module Filters.
Import Models.

(** The form fields behind the filters, which turn the text of a query
    parameter into a value.  [clean_decimal] is [forms.DecimalField.clean]
    ([None]: a validation error, [Some None]: an empty value);
    [clean_null_boolean] is [forms.NullBooleanField.clean], which never
    fails ([None]: an empty value). *)
Class Forms := {
  clean_decimal : string → option (option Q);
  clean_null_boolean : string → option bool
}.

(** A query set: the selected rows, in order. *)
Definition queryset : Type := list (Z * Product.t).

Definition lower_char (c : ascii) : ascii :=
  let n := nat_of_ascii c in
  if (65 <=? n)%nat && (n <=? 90)%nat then ascii_of_nat (n + 32) else c.

Fixpoint lower (s : string) : string :=
  match s with
  | EmptyString => EmptyString
  | String c r => String (lower_char c) (lower r)
  end.

Fixpoint contains (needle hay : string) : bool :=
  if String.prefix needle hay then true
  else match hay with
       | EmptyString => false
       | String _ r => contains needle r
       end.

(** The [icontains] lookup: containment, letter case ignored. *)
Definition icontains (value field : string) : bool :=
  contains (lower value) (lower field).

(** [Filter.filter] for [name]: [CharFilter(lookup_expr="icontains")].
    An empty value leaves the query set as it is. *)
Definition filter_name (value : string) (qs : queryset) : queryset :=
  if String.eqb value "" then qs
  else List.filter (λ r, icontains value (Product.name r.2)) qs.

(** [min_price = NumberFilter(field_name="price", lookup_expr="gte")] *)
Definition filter_min_price (value : option Q) (qs : queryset) : queryset :=
  match value with
  | None => qs
  | Some v => List.filter (λ r, Qle_bool v (Product.price r.2)) qs
  end.

(** [max_price = NumberFilter(field_name="price", lookup_expr="lte")] *)
Definition filter_max_price (value : option Q) (qs : queryset) : queryset :=
  match value with
  | None => qs
  | Some v => List.filter (λ r, Qle_bool (Product.price r.2) v) qs
  end.

(** [category__id = v]: no row matches when the category is [NULL]. *)
Definition category_is (v : Q) (p : Product.t) : bool :=
  match Product.category p with
  | Some c => Qeq_bool (inject_Z c) v
  | None => false
  end.

(** [category = NumberFilter(field_name="category__id")] *)
Definition filter_category (value : option Q) (qs : queryset) : queryset :=
  match value with
  | None => qs
  | Some v => List.filter (λ r, category_is v r.2) qs
  end.

(** [ProductFilter.filter_available(queryset, name, value)] *)
Definition filter_available (qs : queryset) (value : bool) : queryset :=
  if value then
    List.filter (λ r, 0 <? Product.stock_quantity r.2) qs
  else
    List.filter (λ r, Product.stock_quantity r.2 =? 0) qs.

(** [available = BooleanFilter(method="filter_available")]: the method is
    not called for an empty value. *)
Definition filter_available_method (value : option bool) (qs : queryset)
    : queryset :=
  match value with
  | None => qs
  | Some b => filter_available qs b
  end.

(** [is_featured = BooleanFilter(field_name="is_featured")] *)
Definition filter_is_featured (value : option bool) (qs : queryset)
    : queryset :=
  match value with
  | None => qs
  | Some b => List.filter (λ r, Bool.eqb (Product.is_featured r.2) b) qs
  end.

(** [form.cleaned_data] of a valid [ProductFilter]. *)
Record cleaned_data := mk_cleaned {
  name : string;
  min_price : option Q;
  max_price : option Q;
  category : option Q;
  available : option bool;
  is_featured : option bool
}.

(** [FilterSet.filter_queryset]: every filter in turn. *)
Definition filter_queryset (cd : cleaned_data) (qs : queryset) : queryset :=
  filter_is_featured (is_featured cd)
    (filter_available_method (available cd)
       (filter_category (category cd)
          (filter_max_price (max_price cd)
             (filter_min_price (min_price cd)
                (filter_name (name cd) qs))))).

Section Cleaning.
Context `{Forms}.

(** A parameter that is absent from the query string is an empty value. *)
Definition decimal_param (qp : gmap string string) (key : string)
    : option (option Q) :=
  match qp !! key with
  | Some text => clean_decimal text
  | None => Some None
  end.

Definition boolean_param (qp : gmap string string) (key : string)
    : option bool :=
  match qp !! key with
  | Some text => clean_null_boolean text
  | None => None
  end.

Definition char_param (qp : gmap string string) (key : string) : string :=
  match qp !! key with
  | Some text => Py.strip text
  | None => EmptyString
  end.

(** [ProductFilter(request.query_params).form.cleaned_data], [None] when
    the form is not valid.  Only the six declared names are read. *)
Definition clean (qp : gmap string string) : option cleaned_data :=
  match decimal_param qp "min_price", decimal_param qp "max_price",
        decimal_param qp "category" with
  | Some lo, Some hi, Some cat =>
      Some (mk_cleaned (char_param qp "name") lo hi cat
              (boolean_param qp "available")
              (boolean_param qp "is_featured"))
  | _, _, _ => None
  end.

End Cleaning.

(** The predicate of the specification: the conjunction of the filters that
    were supplied. *)
Definition spec_matches (cd : cleaned_data) (p : Product.t) : Prop :=
  (name cd ≠ EmptyString →
     ∃ before after : string,
       lower (Product.name p) = before +:+ lower (name cd) +:+ after)
  ∧ (∀ v, min_price cd = Some v → (v <= Product.price p)%Q)
  ∧ (∀ v, max_price cd = Some v → (Product.price p <= v)%Q)
  ∧ (∀ v, category cd = Some v →
       ∃ c, Product.category p = Some c ∧ (inject_Z c == v)%Q)
  ∧ (available cd = Some true → 0 < Product.stock_quantity p)
  ∧ (available cd = Some false → Product.stock_quantity p = 0)
  ∧ (∀ b, is_featured cd = Some b → Product.is_featured p = b).

End Filters.

(* ===================================================================== *)
(** ** views.py: the purchase action *)
(* ===================================================================== *)

Module Views.
Import Http Models.

(** [self.get_object()] on the detail route: the row with primary key [pk],
    [Http404] when there is none. *)
Definition get_object (st : store) (pk : Z) : option Product.t :=
  products st !! pk.

Definition not_found : result :=
  Response (Detail "Not found.") HTTP_404_NOT_FOUND.

Definition bad_request (detail : string) : result :=
  Response (Detail detail) HTTP_400_BAD_REQUEST.

(** [ProductViewSet.purchase] from the line after [self.get_object()]: the
    instance [product] is in memory, [st] is the database as it is when the
    instance is saved. *)
Definition purchase_body (now : Z) (request : request) (pk : Z)
    (product : Product.t) (st : store) : result * store :=
  (* quantity = request.data.get("quantity") *)
  match data request !! "quantity"%string with
  | None | Some Py.JNull =>
      (bad_request "Quantity is required.", st)
  | Some v =>
      match Py.int v with
      | Py.IntRaise Py.ValueError =>
          (bad_request "Quantity must be an integer.", st)
      | Py.IntRaise e => (Unhandled e, st)
      | Py.IntOk quantity =>
          if quantity <=? 0 then
            (bad_request "Quantity must be a positive integer.", st)
          else if Product.stock_quantity product <? quantity then
            (bad_request
               ("Not enough stock. Only "
                  +:+ Py.str (Product.stock_quantity product)
                  +:+ " available."), st)
          else
            let product :=
              Product.set_stock_quantity
                (Product.stock_quantity product - quantity) product in
            let st := save now pk product st in
            (Response (ProductData pk (Product.touch now product)) HTTP_200_OK,
             st)
      end
  end.

(** [ProductViewSet.purchase(request, pk)], run at time [now]. *)
Definition purchase (now : Z) (request : request) (pk : Z) (st : store)
    : result * store :=
  match get_object st pk with
  | None => (not_found, st)
  | Some product => purchase_body now request pk product st
  end.

(** A purchase call: the clock, the request and the primary key of the URL. *)
Definition call : Type := Z * request * Z.

Definition run_call (c : call) (st : store) : result * store :=
  let '(now, request, pk) := c in purchase now request pk st.

(** The database after a sequence of purchase requests, served one by one. *)
Fixpoint run_purchases (cs : list call) (st : store) : store :=
  match cs with
  | [] => st
  | c :: cs => run_purchases cs (snd (run_call c st))
  end.

(** The routes of the product view set and the verb each is bound to. *)
Inductive action :=
| List | Create | Retrieve | Update | PartialUpdate | Destroy | Purchase.

Definition action_method (a : action) : method :=
  match a with
  | List | Retrieve => GET
  | Create => POST
  | Update => PUT
  | PartialUpdate => PATCH
  | Destroy => DELETE
  | Purchase => POST                (* @action(detail=True, methods=["post"]) *)
  end.

(** *** The list action: filtering and ordering *)

(** [ProductViewSet.ordering_fields] *)
Definition ordering_fields : list string :=
  ["name"; "price"; "stock_quantity"; "created_at"]%string.

(** [Product.Meta.ordering] *)
Definition Meta_ordering : list string := ["name"%string].

(** [term[1:]] when the term starts with a minus sign, the term otherwise. *)
Definition field_of_term (term : string) : string :=
  match term with
  | String c r => if Ascii.eqb c "-"%char then r else term
  | EmptyString => term
  end.

(** [term_valid] of [OrderingFilter.remove_invalid_fields] *)
Definition term_valid (term : string) : bool :=
  bool_decide (field_of_term term ∈ ordering_fields).

Definition remove_invalid_fields (fields : list string) : list string :=
  List.filter term_valid fields.

(** [OrderingFilter.get_ordering]: the valid terms of the [ordering]
    parameter; the view declares no default [ordering], so the answer is
    empty when the parameter is absent, empty or has no valid term. *)
Definition get_ordering (qp : gmap string string) : list string :=
  match qp !! "ordering"%string with
  | Some params =>
      if String.eqb params "" then []
      else remove_invalid_fields (List.map Py.strip (Py.split_comma params))
  | None => []
  end.

(** The order of the database on one column. *)
Definition compare_field (field : string) (p q : Product.t) : comparison :=
  if String.eqb field "name" then
    String.compare (Product.name p) (Product.name q)
  else if String.eqb field "price" then
    Qcompare (Product.price p) (Product.price q)
  else if String.eqb field "stock_quantity" then
    Z.compare (Product.stock_quantity p) (Product.stock_quantity q)
  else if String.eqb field "created_at" then
    Z.compare (Product.created_at p) (Product.created_at q)
  else Eq.

(** One term of [order_by]: [field] ascending, [-field] descending. *)
Definition compare_term (term : string) (p q : Product.t) : comparison :=
  if Py.startswith_minus term then
    CompOpp (compare_field (field_of_term term) p q)
  else compare_field term p q.

(** [ORDER BY t1, t2, ...]: the first term that tells two rows apart. *)
Fixpoint compare_rows (ordering : list string) (r1 r2 : Z * Product.t)
    : comparison :=
  match ordering with
  | [] => Eq
  | term :: terms =>
      match compare_term term r1.2 r2.2 with
      | Eq => compare_rows terms r1 r2
      | c => c
      end
  end.

Definition le_rows (ordering : list string) (r1 r2 : Z * Product.t) : bool :=
  match compare_rows ordering r1 r2 with
  | Gt => false
  | _ => true
  end.

Fixpoint insert_row (ordering : list string) (r : Z * Product.t)
    (qs : Filters.queryset) : Filters.queryset :=
  match qs with
  | [] => [r]
  | x :: xs =>
      if le_rows ordering r x then r :: qs
      else x :: insert_row ordering r xs
  end.

(** [queryset.order_by( *ordering )], as a stable sort. *)
Fixpoint order_by (ordering : list string) (qs : Filters.queryset)
    : Filters.queryset :=
  match qs with
  | [] => []
  | r :: rs => insert_row ordering r (order_by ordering rs)
  end.

(** [Product.objects.all()]: the rows of the table in the order of
    [Meta.ordering]. *)
Definition all (st : store) : Filters.queryset :=
  order_by Meta_ordering (map_to_list (products st)).

(** [OrderingFilter.filter_queryset] *)
Definition ordering_filter (qp : gmap string string) (qs : Filters.queryset)
    : Filters.queryset :=
  match get_ordering qp with
  | [] => qs
  | ordering => order_by ordering qs
  end.

Section ListAction.
Context `{Filters.Forms}.

(** [DjangoFilterBackend.filter_queryset]: [None] stands for the
    validation error raised when the filter form is not valid. *)
Definition django_filter_backend (qp : gmap string string)
    (qs : Filters.queryset) : option Filters.queryset :=
  match Filters.clean qp with
  | Some cd => Some (Filters.filter_queryset cd qs)
  | None => None
  end.

(** [ProductViewSet.list]: the two [filter_backends] in turn over
    [queryset], then the serializer. *)
Definition list_action (request : request) (st : store) : result :=
  match django_filter_backend (query_params request) (all st) with
  | Some qs =>
      Response (ProductList (ordering_filter (query_params request) qs))
               HTTP_200_OK
  | None => Response FieldErrors HTTP_400_BAD_REQUEST
  end.

End ListAction.

(** The names the list action reads in the query string: the filters
    declared by [ProductFilter] and the [ordering] parameter. *)
Definition recognized_params : list string :=
  ["name"; "category"; "min_price"; "max_price"; "available";
   "is_featured"; "ordering"]%string.

(** The request with [key=value] added to its query string. *)
Definition set_param (key value : string) (request : request)
    : Http.request :=
  mk_request (method_of request) (api_key request) (data request)
    (<[key := value]> (query_params request)).

(** Form fields that accept integer literals for numbers and the words
    [true] and [false] for booleans, used in the examples. *)
Definition literal_forms : Filters.Forms :=
  {| Filters.clean_decimal text :=
       if String.eqb (Py.strip text) "" then Some None
       else match Py.int_of_string text with
            | Some n => Some (Some (inject_Z n))
            | None => None
            end;
     Filters.clean_null_boolean text :=
       if String.eqb text "true" then Some true
       else if String.eqb text "false" then Some false
       else None |}.

End Views.

(* ===================================================================== *)
(** ** Concurrent requests *)
(* ===================================================================== *)

Module Concurrent.
Import Http Models Views.

(** A request being served.  [purchase] touches the database twice: it
    loads the instance ([get_object]) and, later, saves it; everything in
    between works on the instance in memory. *)
Inductive thread :=
| Pending (now : Z) (request : request) (pk : Z)
| Fetched (now : Z) (request : request) (pk : Z) (product : Product.t)
| Finished (r : result).

(** One database access of a request. *)
Definition step_thread (t : thread) (st : store) : thread * store :=
  match t with
  | Pending now request pk =>
      match get_object st pk with
      | Some product => (Fetched now request pk product, st)
      | None => (Finished not_found, st)
      end
  | Fetched now request pk product =>
      let '(r, st) := purchase_body now request pk product st in
      (Finished r, st)
  | Finished r => (t, st)
  end.

(** The database and the requests in flight. *)
Definition system : Type := store * list thread.

(** The request number [i] performs its next access. *)
Definition step_at (i : nat) (s : system) : system :=
  match s.2 !! i with
  | Some t =>
      let '(t, st) := step_thread t s.1 in (st, <[i := t]> s.2)
  | None => s
  end.

(** A schedule names, access after access, the request that runs. *)
Definition run (schedule : list nat) (s : system) : system :=
  fold_left (λ s i, step_at i s) schedule s.

Definition succeeded (t : thread) : bool :=
  match t with
  | Finished (Response _ status) => status =? HTTP_200_OK
  | _ => false
  end.

(** The two schedules of two requests in which one request is served
    entirely before the other starts. *)
Definition serial_schedules : list (list nat) :=
  [[0; 0; 1; 1]; [1; 1; 0; 0]]%nat.

(** The quantity a request asks for, when it is an integer. *)
Definition quantity_of (request : request) : option Z :=
  match data request !! "quantity"%string with
  | Some v => match Py.int v with Py.IntOk n => Some n | _ => None end
  | None => None
  end.

(** The requirement of the specification on two requests for the same
    product: whatever the schedule, they do not both succeed when the stock
    does not cover the two quantities together. *)
Definition purchase_is_atomic : Prop :=
  ∀ st pk product now1 now2 request1 request2 n1 n2 schedule st' t1 t2,
    get_object st pk = Some product →
    quantity_of request1 = Some n1 →
    quantity_of request2 = Some n2 →
    Product.stock_quantity product < n1 + n2 →
    run schedule (st, [Pending now1 request1 pk; Pending now2 request2 pk])
      = (st', [t1; t2]) →
    ¬ (succeeded t1 = true ∧ succeeded t2 = true).

End Concurrent.

(* ===================================================================== *)
(** ** Sample data (after the fixtures of [tests.py]) *)
(* ===================================================================== *)

Module Sample.
Import Http Models.

Definition animal_farm : Product.t :=
  Product.mk "Animal Farm" (Some "A satirical novella by George Orwell"%string)
    (10 # 1) 10 None true (Some 1) 100 100.

Definition macbeth : Product.t :=
  Product.mk "Macbeth" (Some " A play by William Shakespeare"%string)
    (20 # 1) 10 None false (Some 1) 102 102.

Definition charger : Product.t :=
  Product.mk "Charger" None (5 # 1) 10 None false (Some 2) 103 103.

Definition broken_item : Product.t :=
  Product.mk "Broken Item" None (1 # 1) 0 None false (Some 2) 105 105.

Definition last_copy : Product.t :=
  Product.mk "Last Copy" None (3 # 1) 1 None false None 106 106.

Definition books : Category.t := Category.mk "Books" None 90 90.
Definition electronics : Category.t := Category.mk "Electronics" None 91 91.

Definition shop : store :=
  mk_store
    (<[1 := animal_farm]> (<[3 := macbeth]> (<[4 := charger]>
       (<[6 := broken_item]> (<[7 := last_copy]> ∅)))))
    (<[1 := books]> (<[2 := electronics]> ∅))
    {[ "test_key"%string ]}.

(** [POST /products/<pk>/purchase/] with body [{"quantity": v}]. *)
Definition post_quantity (key : option string) (v : Py.json) : request :=
  mk_request POST key (<["quantity"%string := v]> ∅) ∅.

Definition buy (n : Z) : request :=
  post_quantity (Some "test_key"%string) (Py.JInt n).

(** Two clients ask for the last copy at the same time. *)
Definition race : Concurrent.system :=
  (shop, [Concurrent.Pending 200 (buy 1) 7; Concurrent.Pending 201 (buy 1) 7]).

(** [GET /products/?k1=v1&...] *)
Definition get_products (qp : list (string * string)) : request :=
  mk_request GET None ∅ (list_to_map qp).

End Sample.

(* ===================================================================== *)
(** ** models.py: the constraints of the tables, deleting a category *)
(* ===================================================================== *)

Module Catalog.
Import Http Models Views.

(** [name = models.CharField(max_length=255, unique=True)] on [Product]. *)
Definition names_unique (st : store) : Prop :=
  ∀ pk1 pk2 p1 p2,
    products st !! pk1 = Some p1 → products st !! pk2 = Some p2 →
    Product.name p1 = Product.name p2 → pk1 = pk2.

(** The foreign key [Product.category]: empty, or an existing category. *)
Definition references_valid (st : store) : Prop :=
  ∀ pk p c,
    products st !! pk = Some p → Product.category p = Some c →
    is_Some (categories st !! c).

(** Attribute assignment [product.category = c]. *)
Definition set_category (c : option Z) (p : Product.t) : Product.t :=
  Product.mk (Product.name p) (Product.description p) (Product.price p)
    (Product.stock_quantity p) (Product.image_url p) (Product.is_featured p)
    c (Product.created_at p) (Product.updated_at p).

(** [on_delete=models.SET_NULL] for the category [deleted]: the rows that
    point to it have their [category] column set to [NULL]; no other column
    is written. *)
Definition SET_NULL (deleted : Z) (p : Product.t) : Product.t :=
  match Product.category p with
  | Some c => if c =? deleted then set_category None p else p
  | None => p
  end.

(** [category.delete()] *)
Definition delete_category (pk : Z) (st : store) : store :=
  mk_store (SET_NULL pk <$> products st) (delete pk (categories st))
    (api_keys st).

Definition HTTP_204_NO_CONTENT : Z := 204.

(** [CategoryViewSet.destroy]: the status of the answer, which has no
    body, and the database. *)
Definition destroy (pk : Z) (st : store) : Z * store :=
  match categories st !! pk with
  | Some _ => (HTTP_204_NO_CONTENT, delete_category pk st)
  | None => (HTTP_404_NOT_FOUND, st)
  end.

(** The units of product [pk] that one purchase call hands out: the
    quantity asked for when the answer is 200, nothing otherwise. *)
Definition sold (pk : Z) (c : call) (st : store) : Z :=
  let '(now, request, target) := c in
  match status_of (run_call c st).1 with
  | Some status =>
      if (status =? HTTP_200_OK) && (target =? pk) then
        default 0 (Concurrent.quantity_of request)
      else 0
  | None => 0
  end.

(** The units of product [pk] handed out by a sequence of calls. *)
Fixpoint units_sold (pk : Z) (cs : list call) (st : store) : Z :=
  match cs with
  | [] => 0
  | c :: cs => sold pk c st + units_sold pk cs (run_call c st).2
  end.

(** The instance a request holds in memory, if it has loaded one. *)
Definition fetched (t : Concurrent.thread) : option Product.t :=
  match t with
  | Concurrent.Fetched _ _ _ product => Some product
  | _ => None
  end.

(** Every stock is non-negative, in the database and in the instances the
    requests hold in memory. *)
Definition stocks_nonneg (s : Concurrent.system) : Prop :=
  stock_nonneg s.1
  ∧ ∀ (j : nat) t p, s.2 !! j = Some t → fetched t = Some p →
      0 <= Product.stock_quantity p.

End Catalog.

(* ===================================================================== *)
(** ** The purchase action: validation, stock check, decrement *)
(* ===================================================================== *)

Module PurchaseProps.
Import Http Models Views.

Lemma status_of_bad_request detail :
  status_of (bad_request detail) = Some HTTP_400_BAD_REQUEST.
Proof. reflexivity. Qed.

(** [int] never yields an integer for [None]. *)
Lemma int_ok_not_null v n : Py.int v = Py.IntOk n → v ≠ Py.JNull.
Proof. intros Hint ->. discriminate Hint. Qed.

(** The body of the action once the quantity is a known integer. *)
Lemma purchase_body_int now request pk product st v quantity :
  data request !! "quantity"%string = Some v →
  Py.int v = Py.IntOk quantity →
  purchase_body now request pk product st =
    if quantity <=? 0 then
      (bad_request "Quantity must be a positive integer.", st)
    else if Product.stock_quantity product <? quantity then
      (bad_request ("Not enough stock. Only "
                      +:+ Py.str (Product.stock_quantity product)
                      +:+ " available."), st)
    else
      let updated :=
        Product.set_stock_quantity
          (Product.stock_quantity product - quantity) product in
      (Response (ProductData pk (Product.touch now updated)) HTTP_200_OK,
       save now pk updated st).
Proof.
  intros Hq Hint. unfold purchase_body. rewrite Hq.
  destruct v; try discriminate Hint; rewrite Hint; reflexivity.
Qed.

(** The requests that the validation of the action turns down. *)
Lemma purchase_invalid_quantity now request pk product st :
  get_object st pk = Some product →
  (data request !! "quantity"%string = None
   ∨ data request !! "quantity"%string = Some Py.JNull →
   purchase now request pk st = (bad_request "Quantity is required.", st))
  ∧ (∀ v, data request !! "quantity"%string = Some v →
       v ≠ Py.JNull → Py.int v = Py.IntRaise Py.ValueError →
       purchase now request pk st =
         (bad_request "Quantity must be an integer.", st))
  ∧ (∀ v n, data request !! "quantity"%string = Some v →
       Py.int v = Py.IntOk n → n <= 0 →
       purchase now request pk st =
         (bad_request "Quantity must be a positive integer.", st)).
Proof.
  intros Hget. unfold purchase. rewrite Hget. repeat split.
  - intros [Hq | Hq]; unfold purchase_body; rewrite Hq; reflexivity.
  - intros v Hq Hnull Hint. unfold purchase_body. rewrite Hq.
    destruct v; try congruence; rewrite Hint; reflexivity.
  - intros v n Hq Hint Hn. rewrite (purchase_body_int _ _ _ _ _ _ _ Hq Hint).
    destruct (Z.leb_spec n 0); [reflexivity | lia].
Qed.

(** C1.  A purchase of a positive integer quantity larger than the stock of
    the product is answered by 400 with the detail "Not enough stock. Only
    <stock> available.", and the database is left as it was. *)
Theorem purchase_insufficient_stock now request pk st product v quantity :
  get_object st pk = Some product →
  data request !! "quantity"%string = Some v →
  Py.int v = Py.IntOk quantity →
  0 < quantity →
  Product.stock_quantity product < quantity →
  purchase now request pk st =
    (Response
       (Detail ("Not enough stock. Only "
                  +:+ Py.str (Product.stock_quantity product)
                  +:+ " available."))
       HTTP_400_BAD_REQUEST,
     st).
Proof.
  intros Hget Hq Hint Hpos Hlt. unfold purchase. rewrite Hget.
  rewrite (purchase_body_int _ _ _ _ _ _ _ Hq Hint).
  destruct (Z.leb_spec quantity 0); [lia |].
  destruct (Z.ltb_spec (Product.stock_quantity product) quantity); [| lia].
  reflexivity.
Qed.

Lemma purchase_insufficient_stock_witness :
  purchase 200 (Sample.buy 1) 6 Sample.shop =
    (Response (Detail "Not enough stock. Only 0 available.")
       HTTP_400_BAD_REQUEST, Sample.shop).
Proof.
  apply (purchase_insufficient_stock 200 (Sample.buy 1) 6 Sample.shop
           Sample.broken_item (Py.JInt 1) 1);
    first [reflexivity | by vm_compute].
Defined.

(** The saving branch: the answer and the database it leaves. *)
Lemma purchase_sufficient_stock now request pk st product v quantity :
  get_object st pk = Some product →
  data request !! "quantity"%string = Some v →
  Py.int v = Py.IntOk quantity →
  0 < quantity →
  quantity <= Product.stock_quantity product →
  let updated :=
    Product.set_stock_quantity
      (Product.stock_quantity product - quantity) product in
  purchase now request pk st =
    (Response (ProductData pk (Product.touch now updated)) HTTP_200_OK,
     save now pk updated st).
Proof.
  intros Hget Hq Hint Hpos Hle. unfold purchase. rewrite Hget.
  rewrite (purchase_body_int _ _ _ _ _ _ _ Hq Hint).
  destruct (Z.leb_spec quantity 0); [lia |].
  destruct (Z.ltb_spec (Product.stock_quantity product) quantity); [lia |].
  reflexivity.
Qed.

(** C3.  A purchase of a positive integer quantity that the stock covers
    succeeds: the answer is 200 with the updated product, the row of the
    product is saved with its stock lowered by exactly the quantity. *)
Theorem purchase_success now request pk st product v quantity :
  get_object st pk = Some product →
  data request !! "quantity"%string = Some v →
  Py.int v = Py.IntOk quantity →
  0 < quantity →
  quantity <= Product.stock_quantity product →
  ∃ updated st',
    purchase now request pk st =
      (Response (ProductData pk updated) HTTP_200_OK, st')
    ∧ products st' !! pk = Some updated
    ∧ Product.stock_quantity updated =
        Product.stock_quantity product - quantity
    ∧ Product.updated_at updated = now.
Proof.
  intros Hget Hq Hint Hpos Hle.
  eexists _, _. split.
  - by apply (purchase_sufficient_stock now request pk st product v quantity).
  - split; [apply lookup_insert_eq | split; reflexivity].
Qed.

Lemma purchase_success_witness :
  ∃ updated st',
    purchase 200 (Sample.buy 3) 1 Sample.shop =
      (Response (ProductData 1 updated) HTTP_200_OK, st')
    ∧ products st' !! 1 = Some updated
    ∧ Product.stock_quantity updated = 10 - 3
    ∧ Product.updated_at updated = 200.
Proof.
  apply (purchase_success 200 (Sample.buy 3) 1 Sample.shop
           Sample.animal_farm (Py.JInt 3) 3);
    first [reflexivity | by vm_compute].
Defined.

(** C10.  Buying exactly what is in stock passes the sufficiency check,
    which is a strict comparison, and leaves a stock of 0. *)
Theorem purchase_all_stock now request pk st product v :
  get_object st pk = Some product →
  0 < Product.stock_quantity product →
  data request !! "quantity"%string = Some v →
  Py.int v = Py.IntOk (Product.stock_quantity product) →
  ∃ updated st',
    purchase now request pk st =
      (Response (ProductData pk updated) HTTP_200_OK, st')
    ∧ products st' !! pk = Some updated
    ∧ Product.stock_quantity updated = 0.
Proof.
  intros Hget Hpos Hq Hint.
  eexists _, _. split.
  - apply (purchase_sufficient_stock now request pk st product v _
             Hget Hq Hint Hpos (Z.le_refl _)).
  - split; [apply lookup_insert_eq | simpl; lia].
Qed.

Lemma purchase_all_stock_witness :
  ∃ updated st',
    purchase 200 (Sample.buy 10) 1 Sample.shop =
      (Response (ProductData 1 updated) HTTP_200_OK, st')
    ∧ products st' !! 1 = Some updated
    ∧ Product.stock_quantity updated = 0.
Proof.
  apply (purchase_all_stock 200 (Sample.buy 10) 1 Sample.shop
           Sample.animal_farm (Py.JInt 10));
    first [reflexivity | by vm_compute].
Defined.

(** What a purchase can do to the database: nothing, or save the fetched
    product with a new stock. *)
Lemma purchase_store_cases now request pk st :
  (purchase now request pk st).2 = st
  ∨ ∃ product quantity,
      get_object st pk = Some product
      ∧ 0 < quantity <= Product.stock_quantity product
      ∧ status_of (purchase now request pk st).1 = Some HTTP_200_OK
      ∧ (purchase now request pk st).2 =
          save now pk
            (Product.set_stock_quantity
               (Product.stock_quantity product - quantity) product) st.
Proof.
  unfold purchase. destruct (get_object st pk) as [product |] eqn:Hget;
    [| by left].
  unfold purchase_body.
  destruct (data request !! "quantity"%string) as [v |]; [| by left].
  destruct v; try (by left);
    (destruct (Py.int _) as [quantity | []] eqn:Hint; try (by left));
    (destruct (Z.leb_spec quantity 0); [by left |]);
    (destruct (Z.ltb_spec (Product.stock_quantity product) quantity);
       [by left |]);
    right; exists product, quantity; repeat split; try done; lia.
Qed.

(** A response with status 200 comes from the saving branch only. *)
Lemma purchase_ok_inv now request pk st payload st' :
  purchase now request pk st = (Response payload HTTP_200_OK, st') →
  ∃ product quantity,
    get_object st pk = Some product
    ∧ 0 < quantity <= Product.stock_quantity product
    ∧ st' = save now pk
              (Product.set_stock_quantity
                 (Product.stock_quantity product - quantity) product) st.
Proof.
  intros Hrun. unfold purchase in Hrun.
  destruct (get_object st pk) as [product |] eqn:Hget; [| discriminate Hrun].
  unfold purchase_body in Hrun.
  destruct (data request !! "quantity"%string) as [v |];
    [| discriminate Hrun].
  destruct v; try discriminate Hrun;
    (destruct (Py.int _) as [quantity | []] eqn:Hint; try discriminate Hrun);
    (destruct (Z.leb_spec quantity 0); [discriminate Hrun |]);
    (destruct (Z.ltb_spec (Product.stock_quantity product) quantity);
       [discriminate Hrun |]);
    exists product, quantity; inversion Hrun; repeat split; try done; lia.
Qed.

(** C9.  A successful purchase changes, in the row of the product, the
    stock and [updated_at] only; all other product rows, the categories and
    the API keys are as before. *)
Theorem purchase_frame now request pk st payload st' :
  purchase now request pk st = (Response payload HTTP_200_OK, st') →
  (∃ before after,
      products st !! pk = Some before
      ∧ products st' !! pk = Some after
      ∧ Product.name after = Product.name before
      ∧ Product.description after = Product.description before
      ∧ Product.price after = Product.price before
      ∧ Product.image_url after = Product.image_url before
      ∧ Product.is_featured after = Product.is_featured before
      ∧ Product.category after = Product.category before
      ∧ Product.created_at after = Product.created_at before)
  ∧ (∀ other, other ≠ pk → products st' !! other = products st !! other)
  ∧ categories st' = categories st
  ∧ api_keys st' = api_keys st.
Proof.
  intros Hrun.
  destruct (purchase_ok_inv _ _ _ _ _ _ Hrun)
    as (product & quantity & Hget & _ & ->).
  split; [| split; [| split; reflexivity]].
  - exists product. eexists. split; [exact Hget |].
    split; [apply lookup_insert_eq |]. repeat split; reflexivity.
  - intros other Hne. simpl. by apply lookup_insert_ne.
Qed.

Lemma purchase_frame_witness :
  (∃ before after,
      products Sample.shop !! 1 = Some before
      ∧ products (purchase 200 (Sample.buy 3) 1 Sample.shop).2 !! 1
          = Some after
      ∧ Product.name after = Product.name before
      ∧ Product.description after = Product.description before
      ∧ Product.price after = Product.price before
      ∧ Product.image_url after = Product.image_url before
      ∧ Product.is_featured after = Product.is_featured before
      ∧ Product.category after = Product.category before
      ∧ Product.created_at after = Product.created_at before)
  ∧ (∀ other, other ≠ 1 →
       products (purchase 200 (Sample.buy 3) 1 Sample.shop).2 !! other
         = products Sample.shop !! other)
  ∧ categories (purchase 200 (Sample.buy 3) 1 Sample.shop).2
      = categories Sample.shop
  ∧ api_keys (purchase 200 (Sample.buy 3) 1 Sample.shop).2
      = api_keys Sample.shop.
Proof.
  apply (purchase_frame 200 (Sample.buy 3) 1 Sample.shop
           (ProductData 1
              (Product.touch 200
                 (Product.set_stock_quantity 7 Sample.animal_farm)))).
  reflexivity.
Defined.

(** One purchase keeps every stock non-negative. *)
Lemma purchase_stock_nonneg now request pk st :
  stock_nonneg st → stock_nonneg (purchase now request pk st).2.
Proof.
  intros Hinv.
  destruct (purchase_store_cases now request pk st)
    as [-> | (product & quantity & Hget & Hq & _ & ->)]; [exact Hinv |].
  intros other p. simpl.
  destruct (decide (pk = other)) as [<- | Hne].
  - rewrite lookup_insert_eq. intros [= <-]. simpl. lia.
  - rewrite lookup_insert_ne by done. apply Hinv.
Qed.

Lemma run_purchases_stock_nonneg cs : ∀ st,
  stock_nonneg st → stock_nonneg (run_purchases cs st).
Proof.
  induction cs as [| [[now request] pk] cs IH]; intros st Hinv;
    [exact Hinv |].
  simpl. apply IH, purchase_stock_nonneg, Hinv.
Qed.

(** C2.  Whatever purchase requests are served, accepted or refused, the
    stock of every product is non-negative after each of them. *)
Theorem stock_never_negative (cs : list call) (st : store) :
  stock_nonneg st →
  ∀ served : nat, stock_nonneg (run_purchases (take served cs) st).
Proof. intros Hinv served. by apply run_purchases_stock_nonneg. Qed.

Lemma shop_stock_nonneg : stock_nonneg Sample.shop.
Proof.
  intros pk p. unfold Sample.shop. simpl.
  repeat (rewrite lookup_insert; case_decide;
          [intros [= <-]; simpl; lia |]).
  rewrite lookup_empty. discriminate.
Qed.

Lemma stock_never_negative_witness :
  stock_nonneg
    (run_purchases
       (take 3
          [(200, Sample.buy 3, 1); (201, Sample.buy 8, 1);
           (202, Sample.buy 7, 1); (203, Sample.buy 1, 6)])
       Sample.shop).
Proof.
  apply (stock_never_negative
           [(200, Sample.buy 3, 1); (201, Sample.buy 8, 1);
            (202, Sample.buy 7, 1); (203, Sample.buy 1, 6)]
           Sample.shop shop_stock_nonneg 3).
Defined.

(** C4.  A quantity that is a JSON array is neither missing nor an integer,
    yet the action does not answer 400: [int] raises [TypeError], which the
    [except ValueError] clause does not catch. *)
Theorem purchase_quantity_array_unhandled :
  purchase 200
    (Sample.post_quantity (Some "test_key"%string)
       (Py.JArray [Py.JInt 1])) 1 Sample.shop
  = (Unhandled Py.TypeError, Sample.shop)
  ∧ status_of
      (purchase 200
         (Sample.post_quantity (Some "test_key"%string)
            (Py.JArray [Py.JInt 1])) 1 Sample.shop).1
    ≠ Some HTTP_400_BAD_REQUEST.
Proof. split; [reflexivity | discriminate]. Qed.

End PurchaseProps.

(* ===================================================================== *)
(** ** The access-control gate *)
(* ===================================================================== *)

Module PermissionProps.
Import Http Models Permissions Views.

Lemma has_permission_safe request st :
  method_of request ∈ SAFE_METHODS → has_permission request st = true.
Proof. intros Hsafe. unfold has_permission. by rewrite bool_decide_true. Qed.

Lemma has_permission_unsafe request st :
  method_of request ∉ SAFE_METHODS →
  has_permission request st = HasAPIKey request st.
Proof. intros Hunsafe. unfold has_permission. by rewrite bool_decide_false. Qed.

Lemma HasAPIKey_false request st :
  (∀ key, api_key request = Some key → key ∉ api_keys st) →
  HasAPIKey request st = false.
Proof.
  intros Hkey. unfold HasAPIKey.
  destruct (api_key request) as [key |]; [| done].
  apply bool_decide_false, Hkey. done.
Qed.

(** C8.  The read actions (list, retrieve) reach their handler without any
    credential.  A request for a mutating action (create, update,
    partial-update, delete, purchase) that presents no valid API key is
    answered by 403 whatever the handler is, so the handler is not run, and
    the database is unchanged. *)
Theorem write_requires_api_key (a : action)
    (handler : request → store → result * store) request st :
  method_of request = action_method a →
  match a with
  | List | Retrieve => dispatch handler request st = handler request st
  | Create | Update | PartialUpdate | Destroy | Purchase =>
      (∀ key, api_key request = Some key → key ∉ api_keys st) →
      dispatch handler request st = (permission_denied, st)
      ∧ status_of permission_denied = Some HTTP_403_FORBIDDEN
  end.
Proof.
  intros Hmethod. unfold dispatch.
  destruct a; simpl in Hmethod;
    try (rewrite has_permission_safe; [done | rewrite Hmethod; compute_done]);
    (intros Hkey; rewrite has_permission_unsafe, HasAPIKey_false;
       [done | done | rewrite Hmethod; compute_done]).
Qed.

Lemma write_requires_api_key_witness :
  dispatch (λ request, purchase 200 request 1)
    (Sample.post_quantity None (Py.JInt 1)) Sample.shop
  = (permission_denied, Sample.shop)
  ∧ status_of permission_denied = Some HTTP_403_FORBIDDEN.
Proof.
  apply (write_requires_api_key Purchase (λ request, purchase 200 request 1)
           (Sample.post_quantity None (Py.JInt 1)) Sample.shop).
  - reflexivity.
  - intros key Hkey. discriminate Hkey.
Defined.

End PermissionProps.

(* ===================================================================== *)
(** ** Concurrent purchases *)
(* ===================================================================== *)

Module ConcurrentProps.
Import Http Models Views Concurrent.

(** Served alone, a request does what [purchase] does. *)
Lemma run_alone now request pk st :
  run [0; 0]%nat (st, [Pending now request pk]) =
    ((purchase now request pk st).2,
     [Finished (purchase now request pk st).1]).
Proof.
  unfold run, step_at, purchase. simpl.
  destruct (get_object st pk) as [product |]; simpl; [| reflexivity].
  by destruct (purchase_body now request pk product st).
Qed.

(** Two requests served one after the other. *)
Lemma run_serial_01 now1 request1 pk1 now2 request2 pk2 st :
  run [0; 0; 1; 1]%nat
    (st, [Pending now1 request1 pk1; Pending now2 request2 pk2]) =
    let r1 := purchase now1 request1 pk1 st in
    let r2 := purchase now2 request2 pk2 r1.2 in
    (r2.2, [Finished r1.1; Finished r2.1]).
Proof.
  unfold run, step_at, purchase. simpl.
  destruct (get_object st pk1) as [product1 |]; simpl.
  - destruct (purchase_body now1 request1 pk1 product1 st) as [r1 st1].
    simpl. destruct (get_object st1 pk2) as [product2 |]; simpl;
      [| reflexivity].
    by destruct (purchase_body now2 request2 pk2 product2 st1).
  - destruct (get_object st pk2) as [product2 |]; simpl; [| reflexivity].
    by destruct (purchase_body now2 request2 pk2 product2 st).
Qed.

Lemma run_serial_10 now1 request1 pk1 now2 request2 pk2 st :
  run [1; 1; 0; 0]%nat
    (st, [Pending now1 request1 pk1; Pending now2 request2 pk2]) =
    let r2 := purchase now2 request2 pk2 st in
    let r1 := purchase now1 request1 pk1 r2.2 in
    (r1.2, [Finished r1.1; Finished r2.1]).
Proof.
  unfold run, step_at, purchase. simpl.
  destruct (get_object st pk2) as [product2 |]; simpl.
  - destruct (purchase_body now2 request2 pk2 product2 st) as [r2 st2].
    simpl. destruct (get_object st2 pk1) as [product1 |]; simpl;
      [| reflexivity].
    by destruct (purchase_body now1 request1 pk1 product1 st2).
  - destruct (get_object st pk1) as [product1 |]; simpl; [| reflexivity].
    by destruct (purchase_body now1 request1 pk1 product1 st).
Qed.

Lemma quantity_of_inv request n :
  quantity_of request = Some n →
  ∃ v, data request !! "quantity"%string = Some v ∧ Py.int v = Py.IntOk n.
Proof.
  unfold quantity_of. destruct (data request !! "quantity"%string) as [v |];
    [| discriminate].
  destruct (Py.int v) eqn:Hint; [| discriminate].
  intros [= <-]. by exists v.
Qed.

(** Two purchases of the same product in a row: the second sees the stock
    the first has left. *)
Lemma purchase_twice now1 request1 now2 request2 pk st product n1 n2 :
  get_object st pk = Some product →
  quantity_of request1 = Some n1 →
  quantity_of request2 = Some n2 →
  Product.stock_quantity product < n1 + n2 →
  let r1 := purchase now1 request1 pk st in
  let r2 := purchase now2 request2 pk r1.2 in
  ¬ (succeeded (Finished r1.1) = true ∧ succeeded (Finished r2.1) = true).
Proof.
  intros Hget Hq1 Hq2 Hlt r1 r2 [Hs1 Hs2].
  destruct (quantity_of_inv _ _ Hq1) as (v1 & Hv1 & Hint1).
  destruct (quantity_of_inv _ _ Hq2) as (v2 & Hv2 & Hint2).
  assert (Hr1 : r1 = purchase_body now1 request1 pk product st).
  { unfold r1, purchase. by rewrite Hget. }
  rewrite (PurchaseProps.purchase_body_int _ _ _ _ _ _ _ Hv1 Hint1) in Hr1.
  destruct (Z.leb_spec n1 0);
    [rewrite Hr1 in Hs1; discriminate Hs1 |].
  destruct (Z.ltb_spec (Product.stock_quantity product) n1);
    [rewrite Hr1 in Hs1; discriminate Hs1 |].
  assert (Hr2 : r2 =
    purchase_body now2 request2 pk
      (Product.touch now1
         (Product.set_stock_quantity
            (Product.stock_quantity product - n1) product)) r1.2).
  { unfold r2, purchase, get_object. rewrite Hr1. simpl.
    by rewrite lookup_insert_eq. }
  rewrite (PurchaseProps.purchase_body_int _ _ _ _ _ _ _ Hv2 Hint2) in Hr2.
  destruct (Z.leb_spec n2 0);
    [rewrite Hr2 in Hs2; discriminate Hs2 |].
  simpl in Hr2.
  destruct (Z.ltb_spec (Product.stock_quantity product - n1) n2); [| lia].
  rewrite Hr2 in Hs2. discriminate Hs2.
Qed.

(** C5, as the code has it.  [purchase] reads the product and writes it
    back in two separate accesses, without lock or conditional update.
    When the two requests are served one after the other, they do not both
    succeed if the stock does not cover both quantities. *)
Theorem serial_purchases_never_oversell
    st pk product now1 now2 request1 request2 n1 n2 schedule :
  get_object st pk = Some product →
  quantity_of request1 = Some n1 →
  quantity_of request2 = Some n2 →
  Product.stock_quantity product < n1 + n2 →
  schedule ∈ serial_schedules →
  ∃ st' t1 t2,
    run schedule (st, [Pending now1 request1 pk; Pending now2 request2 pk])
      = (st', [t1; t2])
    ∧ ¬ (succeeded t1 = true ∧ succeeded t2 = true).
Proof.
  intros Hget Hq1 Hq2 Hlt Hsched. unfold serial_schedules in Hsched.
  apply elem_of_cons in Hsched as [-> | Hsched];
    [| apply elem_of_cons in Hsched as [-> | Hsched];
       [| by apply elem_of_nil in Hsched]].
  - rewrite run_serial_01. eexists _, _, _. split; [reflexivity |].
    by apply (purchase_twice now1 request1 now2 request2 pk st product n1 n2).
  - rewrite run_serial_10. eexists _, _, _. split; [reflexivity |].
    intros [H1 H2].
    apply (purchase_twice now2 request2 now1 request1 pk st product n2 n1);
      [done | done | done | lia | done].
Qed.

Lemma serial_purchases_never_oversell_witness :
  ∃ st' t1 t2,
    run [0; 0; 1; 1]%nat Sample.race = (st', [t1; t2])
    ∧ ¬ (succeeded t1 = true ∧ succeeded t2 = true).
Proof.
  apply (serial_purchases_never_oversell Sample.shop 7 Sample.last_copy
           200 201 (Sample.buy 1) (Sample.buy 1) 1 1 [0; 0; 1; 1]%nat);
    first [reflexivity | by vm_compute | set_solver].
Defined.

(** C5, as stated, fails.  The last copy is sold twice: both requests load
    the product while its stock is 1, both pass the check, both save a stock
    of 0 and both answer 200. *)
Lemma purchase_race_both_succeed :
  get_object Sample.shop 7 = Some Sample.last_copy
  ∧ Product.stock_quantity Sample.last_copy = 1
  ∧ quantity_of (Sample.buy 1) = Some 1
  ∧ succeeded <$> (run [0; 1; 0; 1]%nat Sample.race).2 = [true; true]
  ∧ Product.stock_quantity
      <$> get_object (run [0; 1; 0; 1]%nat Sample.race).1 7 = Some 0
  ∧ ¬ purchase_is_atomic.
Proof.
  repeat split; try reflexivity.
  intros Hatomic.
  apply (Hatomic Sample.shop 7 Sample.last_copy 200 201
           (Sample.buy 1) (Sample.buy 1) 1 1 [0; 1; 0; 1]%nat
           _ _ _ eq_refl eq_refl eq_refl eq_refl eq_refl).
  split; reflexivity.
Qed.

End ConcurrentProps.

(* ===================================================================== *)
(** ** The filters of the list action *)
(* ===================================================================== *)

Module FilterProps.
Import Http Models Filters Views.

Lemma prefix_spec (a b : string) :
  String.prefix a b = true ↔ ∃ rest, b = a +:+ rest.
Proof.
  revert b. induction a as [| c a IH]; intros [| d b]; simpl.
  - split; [intros _; by exists ""%string | done].
  - split; [intros _; by exists (String d b) | done].
  - split; [done | intros [rest Hrest]; discriminate Hrest].
  - destruct (ascii_dec c d) as [-> | Hne].
    + rewrite IH. split; intros [rest Hrest]; exists rest.
      * by rewrite Hrest.
      * by injection Hrest.
    + split; [done | intros [rest Hrest]]. injection Hrest. congruence.
Qed.

(** [contains] finds exactly the needles that occur in the hay. *)
Lemma contains_spec (needle hay : string) :
  contains needle hay = true
  ↔ ∃ before after, hay = before +:+ needle +:+ after.
Proof.
  induction hay as [| c hay IH]; cbn [contains].
  - destruct (String.prefix needle "") eqn:Hp.
    + apply prefix_spec in Hp as [rest Hrest].
      split; [intros _; by exists ""%string, rest | reflexivity].
    + split; [intros Hf; discriminate Hf | intros (before & after & Heq)].
      destruct before; simpl in Heq.
      * assert (String.prefix needle "" = true) as Hp'
          by (apply prefix_spec; eauto). congruence.
      * discriminate Heq.
  - destruct (String.prefix needle (String c hay)) eqn:Hp.
    + apply prefix_spec in Hp as [rest Hrest].
      split; [intros _; by exists ""%string, rest | reflexivity].
    + rewrite IH. split.
      * intros (before & after & ->). by exists (String c before), after.
      * intros (before & after & Heq). destruct before; simpl in Heq.
        -- assert (String.prefix needle (String c hay) = true) as Hp'
             by (apply prefix_spec; eauto). congruence.
        -- injection Heq as _ ->. eauto.
Qed.

Lemma elem_of_filter_bool {A} (f : A → bool) (l : list A) (x : A) :
  x ∈ List.filter f l ↔ x ∈ l ∧ f x = true.
Proof. rewrite !list_elem_of_In. apply filter_In. Qed.

Lemma filter_name_spec value qs r :
  r ∈ filter_name value qs
  ↔ r ∈ qs
    ∧ (value ≠ EmptyString →
         ∃ before after,
           lower (Product.name r.2) = before +:+ lower value +:+ after).
Proof.
  unfold filter_name. destruct (String.eqb_spec value "") as [-> | Hne].
  - naive_solver.
  - rewrite elem_of_filter_bool. unfold icontains. rewrite contains_spec.
    naive_solver.
Qed.

Lemma filter_min_price_spec value qs r :
  r ∈ filter_min_price value qs
  ↔ r ∈ qs ∧ (∀ v, value = Some v → (v <= Product.price r.2)%Q).
Proof.
  destruct value as [v |]; simpl; [| naive_solver].
  rewrite elem_of_filter_bool, Qle_bool_iff. naive_solver.
Qed.

Lemma filter_max_price_spec value qs r :
  r ∈ filter_max_price value qs
  ↔ r ∈ qs ∧ (∀ v, value = Some v → (Product.price r.2 <= v)%Q).
Proof.
  destruct value as [v |]; simpl; [| naive_solver].
  rewrite elem_of_filter_bool, Qle_bool_iff. naive_solver.
Qed.

Lemma category_is_spec v p :
  category_is v p = true
  ↔ ∃ c, Product.category p = Some c ∧ (inject_Z c == v)%Q.
Proof.
  unfold category_is. destruct (Product.category p) as [c |].
  - rewrite Qeq_bool_iff. naive_solver.
  - naive_solver.
Qed.

Lemma filter_category_spec value qs r :
  r ∈ filter_category value qs
  ↔ r ∈ qs
    ∧ (∀ v, value = Some v →
         ∃ c, Product.category r.2 = Some c ∧ (inject_Z c == v)%Q).
Proof.
  destruct value as [v |]; simpl; [| naive_solver].
  rewrite elem_of_filter_bool, category_is_spec. naive_solver.
Qed.

(** [filter_available]: in stock, or exactly out of stock. *)
Lemma filter_available_spec qs value r :
  r ∈ filter_available qs value
  ↔ r ∈ qs
    ∧ (if value then 0 < Product.stock_quantity r.2
       else Product.stock_quantity r.2 = 0).
Proof.
  unfold filter_available. destruct value; rewrite elem_of_filter_bool.
  - by rewrite Z.ltb_lt.
  - by rewrite Z.eqb_eq.
Qed.

Lemma filter_available_method_spec value qs r :
  r ∈ filter_available_method value qs
  ↔ r ∈ qs
    ∧ (value = Some true → 0 < Product.stock_quantity r.2)
    ∧ (value = Some false → Product.stock_quantity r.2 = 0).
Proof.
  destruct value as [[] |]; cbn [filter_available_method];
    rewrite ?filter_available_spec.
  - split; [intros [Hin Hs] | intros (Hin & Hs & _)]; split_and?; auto; done.
  - split; [intros [Hin Hs] | intros (Hin & _ & Hs)]; split_and?; auto; done.
  - split; [intros Hin | intros (Hin & _)]; split_and?; auto; done.
Qed.

Lemma filter_is_featured_spec value qs r :
  r ∈ filter_is_featured value qs
  ↔ r ∈ qs ∧ (∀ b, value = Some b → Product.is_featured r.2 = b).
Proof.
  destruct value as [b |]; simpl; [| naive_solver].
  rewrite elem_of_filter_bool, Bool.eqb_true_iff. naive_solver.
Qed.

(** The filter set selects the rows that satisfy every supplied filter. *)
Lemma filter_queryset_spec cd qs r :
  r ∈ filter_queryset cd qs ↔ r ∈ qs ∧ spec_matches cd r.2.
Proof.
  unfold filter_queryset, spec_matches.
  rewrite filter_is_featured_spec, filter_available_method_spec,
    filter_category_spec, filter_max_price_spec, filter_min_price_spec,
    filter_name_spec.
  tauto.
Qed.

Lemma filter_queryset_sublist cd qs : sublist (filter_queryset cd qs) qs.
Proof.
  assert (Hsub : ∀ (f : Z * Product.t → bool) l, sublist (List.filter f l) l).
  { intros f l. induction l as [| x l IH]; simpl; [constructor |].
    destruct (f x); by constructor. }
  unfold filter_queryset, filter_is_featured, filter_available_method,
    filter_available, filter_category, filter_max_price, filter_min_price,
    filter_name.
  repeat first
    [ reflexivity
    | match goal with
      | |- sublist (match ?x with _ => _ end) _ => destruct x
      | |- sublist (if ?x then _ else _) _ => destruct x
      | |- sublist (List.filter _ _) _ => etrans; [apply Hsub |]
      end ].
Qed.

Lemma insert_row_perm ordering r qs :
  insert_row ordering r qs ≡ₚ r :: qs.
Proof.
  induction qs as [| x xs IH]; simpl; [done |].
  destruct (le_rows ordering r x); [done |].
  rewrite IH. apply Permutation_swap.
Qed.

(** [order_by] keeps the rows and changes their order only. *)
Lemma order_by_perm ordering qs : order_by ordering qs ≡ₚ qs.
Proof.
  induction qs as [| r rs IH]; simpl; [done |].
  by rewrite insert_row_perm, IH.
Qed.

Lemma ordering_filter_perm qp qs : ordering_filter qp qs ≡ₚ qs.
Proof.
  unfold ordering_filter. destruct (get_ordering qp); [done |].
  apply order_by_perm.
Qed.

Lemma elem_of_all st pk p :
  (pk, p) ∈ all st ↔ products st !! pk = Some p.
Proof.
  unfold all. rewrite order_by_perm. apply elem_of_map_to_list.
Qed.

Lemma NoDup_all st : NoDup (all st).
Proof. unfold all. rewrite order_by_perm. apply NoDup_map_to_list. Qed.

Section WithForms.
Context `{Forms}.

(** C6.  When the filter form is valid, the list action answers 200 with
    exactly the products of the table that satisfy all the supplied
    filters, each of them once. *)
Theorem list_action_filters request st cd :
  clean (query_params request) = Some cd →
  ∃ rows,
    list_action request st = Response (ProductList rows) HTTP_200_OK
    ∧ NoDup rows
    ∧ ∀ pk p,
        (pk, p) ∈ rows ↔ products st !! pk = Some p ∧ spec_matches cd p.
Proof.
  intros Hclean. unfold list_action, django_filter_backend. rewrite Hclean.
  eexists. split; [reflexivity |]. split.
  - rewrite ordering_filter_perm.
    eapply sublist_NoDup; [apply NoDup_all | apply filter_queryset_sublist].
  - intros pk p.
    by rewrite ordering_filter_perm, filter_queryset_spec, elem_of_all.
Qed.

End WithForms.

Lemma list_action_filters_witness :
  ∃ rows,
    @list_action literal_forms
      (Sample.get_products
         [("name", "FARM"); ("available", "true")]%string) Sample.shop
    = Response (ProductList rows) HTTP_200_OK
    ∧ NoDup rows
    ∧ ∀ pk p,
        (pk, p) ∈ rows
        ↔ products Sample.shop !! pk = Some p
          ∧ spec_matches
              (mk_cleaned "FARM" None None None (Some true) None) p.
Proof.
  apply (@list_action_filters literal_forms
           (Sample.get_products
              [("name", "FARM"); ("available", "true")]%string)
           Sample.shop).
  reflexivity.
Defined.

(** The price range of the tests: 10 and 20 are both within bounds. *)
Example list_price_range :
  @list_action literal_forms
    (Sample.get_products
       [("min_price", "10"); ("max_price", "20")]%string) Sample.shop
  = Response (ProductList [(1, Sample.animal_farm); (3, Sample.macbeth)])
      HTTP_200_OK.
Proof. reflexivity. Qed.

Example list_not_available :
  @list_action literal_forms
    (Sample.get_products [("available", "false")]%string) Sample.shop
  = Response (ProductList [(6, Sample.broken_item)]) HTTP_200_OK.
Proof. reflexivity. Qed.

End FilterProps.

(* ===================================================================== *)
(** ** The ordering of the list action *)
(* ===================================================================== *)

Module OrderingProps.
Import Http Models Filters Views.

(** *** The order on one column is total and transitive *)

Lemma ascii_compare_refl c : Ascii.compare c c = Eq.
Proof. apply N.compare_refl. Qed.

Lemma ascii_compare_lt_trans a b c :
  Ascii.compare a b = Lt → Ascii.compare b c = Lt → Ascii.compare a c = Lt.
Proof.
  unfold Ascii.compare. rewrite !N.compare_lt_iff. apply N.lt_trans.
Qed.

Lemma string_compare_trans a : ∀ b c,
  String.compare a b ≠ Gt → String.compare b c ≠ Gt →
  String.compare a c ≠ Gt.
Proof.
  induction a as [| x a IH]; intros [| y b] [| z c]; simpl; try done.
  destruct (Ascii.compare x y) eqn:Hxy; [| | done];
    (destruct (Ascii.compare y z) eqn:Hyz; [| | done]).
  - apply Ascii.compare_eq_iff in Hxy as ->.
    apply Ascii.compare_eq_iff in Hyz as ->.
    rewrite ascii_compare_refl. apply IH.
  - apply Ascii.compare_eq_iff in Hxy as ->. by rewrite Hyz.
  - apply Ascii.compare_eq_iff in Hyz as <-. by rewrite Hxy.
  - by rewrite (ascii_compare_lt_trans _ _ _ Hxy Hyz).
Qed.

Lemma compare_field_antisym field p q :
  compare_field field q p = CompOpp (compare_field field p q).
Proof.
  unfold compare_field. repeat case_match; try done.
  - apply String.compare_antisym.
  - symmetry. apply Qcompare_antisym.
  - apply Z.compare_antisym.
  - apply Z.compare_antisym.
Qed.

Lemma compare_field_trans field p q r :
  compare_field field p q ≠ Gt → compare_field field q r ≠ Gt →
  compare_field field p r ≠ Gt.
Proof.
  unfold compare_field. repeat case_match; try done.
  - apply string_compare_trans.
  - rewrite <- !Qle_alt. apply Qle_trans.
  - apply Z.le_trans.
  - apply Z.le_trans.
Qed.

Lemma CompOpp_not_Gt c : CompOpp c ≠ Gt ↔ c ≠ Lt.
Proof. by destruct c. Qed.

Lemma compare_term_antisym term p q :
  compare_term term q p = CompOpp (compare_term term p q).
Proof.
  unfold compare_term. destruct (Py.startswith_minus term);
    by rewrite (compare_field_antisym _ p q).
Qed.

Lemma compare_term_trans term p q r :
  compare_term term p q ≠ Gt → compare_term term q r ≠ Gt →
  compare_term term p r ≠ Gt.
Proof.
  unfold compare_term. destruct (Py.startswith_minus term);
    [| apply compare_field_trans].
  rewrite !CompOpp_not_Gt.
  rewrite (compare_field_antisym _ q p), (compare_field_antisym _ r q),
    (compare_field_antisym _ r p), <- !CompOpp_not_Gt, !CompOpp_involutive.
  intros Hqp Hrq. by apply (compare_field_trans _ r q p).
Qed.

(** *** Ordering by one term *)

Lemma le_rows_single term r1 r2 :
  le_rows [term] r1 r2 = true ↔ compare_term term r1.2 r2.2 ≠ Gt.
Proof.
  unfold le_rows. simpl. by destruct (compare_term term r1.2 r2.2).
Qed.

Lemma le_rows_single_total term r1 r2 :
  le_rows [term] r1 r2 = false → compare_term term r2.2 r1.2 ≠ Gt.
Proof.
  intros Hle. rewrite compare_term_antisym.
  unfold le_rows in Hle. simpl in Hle.
  by destruct (compare_term term r1.2 r2.2).
Qed.

Lemma insert_row_sorted term r qs :
  StronglySorted (λ r1 r2, compare_term term r1.2 r2.2 ≠ Gt) qs →
  StronglySorted (λ r1 r2, compare_term term r1.2 r2.2 ≠ Gt)
    (insert_row [term] r qs).
Proof.
  induction 1 as [| x xs Hsorted IH Hall]; simpl.
  - repeat constructor.
  - destruct (le_rows [term] r x) eqn:Hle.
    + apply le_rows_single in Hle. constructor; [by constructor |].
      constructor; [exact Hle |].
      eapply Forall_impl; [exact Hall |].
      intros y Hxy. by apply (compare_term_trans term r.2 x.2 y.2).
    + apply le_rows_single_total in Hle. constructor; [exact IH |].
      rewrite FilterProps.insert_row_perm. by constructor.
Qed.

(** [order_by] with one term sorts on that term. *)
Lemma order_by_sorted term qs :
  StronglySorted (λ r1 r2, compare_term term r1.2 r2.2 ≠ Gt)
    (order_by [term] qs).
Proof.
  induction qs as [| r rs IH]; simpl; [constructor |].
  by apply insert_row_sorted.
Qed.

Lemma StronglySorted_sublist {A} (R : A → A → Prop) l k :
  sublist l k → StronglySorted R k → StronglySorted R l.
Proof.
  induction 1 as [| x l k Hsub IH | x l k Hsub IH]; intros Hk.
  - constructor.
  - apply StronglySorted_inv in Hk as [Hk Hall]. constructor; [auto |].
    rewrite Forall_forall in *. intros y Hy. apply Hall.
    by eapply elem_of_sublist.
  - apply StronglySorted_inv in Hk as [Hk _]. auto.
Qed.

Lemma StronglySorted_weaken {A} (R R' : A → A → Prop) l :
  (∀ x y, R x y → R' x y) → StronglySorted R l → StronglySorted R' l.
Proof.
  intros Himpl. induction 1 as [| x l Hl IH Hall]; constructor; [done |].
  eapply Forall_impl; [exact Hall | apply Himpl].
Qed.

(** *** What [get_ordering] returns *)

Lemma get_ordering_field qp field :
  field ∈ ordering_fields →
  qp !! "ordering"%string = Some field →
  get_ordering qp = [field]
  ∧ compare_term field = compare_field field.
Proof.
  intros Hfield Hqp. unfold get_ordering. rewrite Hqp.
  unfold ordering_fields in Hfield.
  repeat (apply elem_of_cons in Hfield as [-> | Hfield]; [by split |]).
  by apply elem_of_nil in Hfield.
Qed.

Lemma get_ordering_minus_field qp field :
  field ∈ ordering_fields →
  qp !! "ordering"%string = Some ("-" +:+ field) →
  get_ordering qp = ["-" +:+ field]
  ∧ ∀ p q, compare_term ("-" +:+ field) p q
           = CompOpp (compare_field field p q).
Proof.
  intros Hfield Hqp. unfold get_ordering. rewrite Hqp.
  unfold ordering_fields in Hfield.
  repeat (apply elem_of_cons in Hfield as [-> | Hfield]; [by split |]).
  by apply elem_of_nil in Hfield.
Qed.

Lemma get_ordering_absent qp :
  qp !! "ordering"%string = None → get_ordering qp = [].
Proof. intros Hqp. unfold get_ordering. by rewrite Hqp. Qed.

(** A parameter that the list action does not know changes nothing it
    reads. *)
Lemma lookup_unrecognized (qp : gmap string string) key value name :
  key ∉ recognized_params → name ∈ recognized_params →
  <[key := value]> qp !! name = qp !! name.
Proof. intros Hkey Hname. apply lookup_insert_ne. congruence. Qed.

Lemma get_ordering_unrecognized qp key value :
  key ∉ recognized_params →
  get_ordering (<[key := value]> qp) = get_ordering qp.
Proof.
  intros Hkey. unfold get_ordering.
  by rewrite (lookup_unrecognized qp key value "ordering")
    by (done || compute_done).
Qed.

Section WithForms.
Context `{Forms}.

Lemma clean_unrecognized qp key value :
  key ∉ recognized_params → clean (<[key := value]> qp) = clean qp.
Proof.
  intros Hkey. unfold clean, decimal_param, boolean_param, char_param.
  by rewrite !(lookup_unrecognized qp key value) by (done || compute_done).
Qed.

Lemma list_action_rows request st rows :
  list_action request st = Response (ProductList rows) HTTP_200_OK →
  ∃ cd, rows = ordering_filter (query_params request)
                 (filter_queryset cd (all st)).
Proof.
  unfold list_action, django_filter_backend.
  destruct (clean (query_params request)) as [cd |]; [| discriminate].
  intros [= <-]. by exists cd.
Qed.

(** C7.  In the answer of the list action: an [ordering] parameter that
    names one of the four fields gives rows that never decrease on that
    field; with a leading minus sign they never increase; without the
    parameter, or when none of its terms is a known field, the rows are in
    the default order of the model, by name; a query parameter that is not
    recognized leaves the answer as it is. *)
Theorem list_action_ordering request st rows :
  list_action request st = Response (ProductList rows) HTTP_200_OK →
  (∀ field, field ∈ ordering_fields →
     query_params request !! "ordering"%string = Some field →
     StronglySorted (λ r1 r2, compare_field field r1.2 r2.2 ≠ Gt) rows)
  ∧ (∀ field, field ∈ ordering_fields →
       query_params request !! "ordering"%string = Some ("-" +:+ field) →
       StronglySorted (λ r1 r2, compare_field field r1.2 r2.2 ≠ Lt) rows)
  ∧ (query_params request !! "ordering"%string = None
     ∨ get_ordering (query_params request) = [] →
     StronglySorted
       (λ r1 r2, String.compare (Product.name r1.2) (Product.name r2.2) ≠ Gt)
       rows)
  ∧ (∀ key value, key ∉ recognized_params →
       list_action (set_param key value request) st
       = list_action request st).
Proof.
  intros Hrun. destruct (list_action_rows _ _ _ Hrun) as [cd ->].
  unfold ordering_filter. split_and!.
  - intros field Hfield Hqp.
    destruct (get_ordering_field _ _ Hfield Hqp) as [-> <-].
    apply order_by_sorted.
  - intros field Hfield Hqp.
    destruct (get_ordering_minus_field _ _ Hfield Hqp) as [-> Hcmp].
    eapply StronglySorted_weaken; [| apply order_by_sorted].
    intros r1 r2. simpl. by rewrite Hcmp, CompOpp_not_Gt.
  - intros Hdefault.
    assert (get_ordering (query_params request) = []) as ->
      by (destruct Hdefault; [by apply get_ordering_absent | done]).
    eapply StronglySorted_sublist; [apply FilterProps.filter_queryset_sublist |].
    apply (order_by_sorted "name").
  - intros key value Hkey. unfold list_action, django_filter_backend.
    unfold ordering_filter, set_param. simpl.
    by rewrite clean_unrecognized, get_ordering_unrecognized.
Qed.

End WithForms.

Lemma list_action_ordering_witness :
  let request := Sample.get_products [("ordering", "-price")]%string in
  let rows :=
    [(3, Sample.macbeth); (1, Sample.animal_farm); (4, Sample.charger);
     (7, Sample.last_copy); (6, Sample.broken_item)] in
  (∀ field, field ∈ ordering_fields →
     query_params request !! "ordering"%string = Some field →
     StronglySorted (λ r1 r2, compare_field field r1.2 r2.2 ≠ Gt) rows)
  ∧ (∀ field, field ∈ ordering_fields →
       query_params request !! "ordering"%string = Some ("-" +:+ field) →
       StronglySorted (λ r1 r2, compare_field field r1.2 r2.2 ≠ Lt) rows)
  ∧ (query_params request !! "ordering"%string = None
     ∨ get_ordering (query_params request) = [] →
     StronglySorted
       (λ r1 r2, String.compare (Product.name r1.2) (Product.name r2.2) ≠ Gt)
       rows)
  ∧ (∀ key value, key ∉ recognized_params →
       @list_action literal_forms (set_param key value request) Sample.shop
       = @list_action literal_forms request Sample.shop).
Proof.
  exact (@list_action_ordering literal_forms
           (Sample.get_products [("ordering", "-price")]%string) Sample.shop
           [(3, Sample.macbeth); (1, Sample.animal_farm);
            (4, Sample.charger); (7, Sample.last_copy);
            (6, Sample.broken_item)]
           eq_refl).
Defined.

(** Without [ordering] the rows come by name, as [Meta.ordering] says. *)
Example list_default_order :
  @list_action literal_forms (Sample.get_products []) Sample.shop
  = Response
      (ProductList
         [(1, Sample.animal_farm); (6, Sample.broken_item);
          (4, Sample.charger); (7, Sample.last_copy); (3, Sample.macbeth)])
      HTTP_200_OK.
Proof. reflexivity. Qed.

(** An [ordering] that names no field of [ordering_fields], and a
    parameter that no filter declares, are both ignored. *)
Example list_unknown_parameters :
  @list_action literal_forms
    (Sample.get_products
       [("ordering", "colour, -weight"); ("page", "2")]%string) Sample.shop
  = @list_action literal_forms (Sample.get_products []) Sample.shop.
Proof. reflexivity. Qed.

Example list_by_stock :
  @list_action literal_forms
    (Sample.get_products
       [("ordering", "stock_quantity"); ("category", "2")]%string)
    Sample.shop
  = Response (ProductList [(6, Sample.broken_item); (4, Sample.charger)])
      HTTP_200_OK.
Proof. reflexivity. Qed.

End OrderingProps.

(* ===================================================================== *)
(** ** Scenarios of the test suite and of the specification *)
(* ===================================================================== *)

Module Scenarios.
Import Http Models Views.

Example int_of_padded_text : Py.int (Py.JString " +1_000 ") = Py.IntOk 1000.
Proof. reflexivity. Qed.

Example int_of_words : Py.int (Py.JString "three") = Py.IntRaise Py.ValueError.
Proof. reflexivity. Qed.

Example int_of_fraction : Py.int (Py.JFloat (Py.FFinite (-7 # 2))) = Py.IntOk (-3).
Proof. reflexivity. Qed.

(** [test_purchase_out_of_stock_product_fails] *)
Example purchase_out_of_stock :
  purchase 200 (Sample.buy 1) 6 Sample.shop
  = (bad_request "Not enough stock. Only 0 available.", Sample.shop).
Proof. reflexivity. Qed.

(** Stock 10: buying 3 leaves 7, then buying 8 is refused and 7 remain. *)
Example purchase_three_then_eight :
  let st1 := (purchase 200 (Sample.buy 3) 1 Sample.shop).2 in
  status_of (purchase 200 (Sample.buy 3) 1 Sample.shop).1 = Some HTTP_200_OK
  ∧ Product.stock_quantity <$> get_object st1 1 = Some 7
  ∧ purchase 201 (Sample.buy 8) 1 st1
    = (bad_request "Not enough stock. Only 7 available.", st1).
Proof. repeat split; reflexivity. Qed.

Example purchase_text_quantity :
  (purchase 200
     (Sample.post_quantity (Some "test_key"%string) (Py.JString "abc"))
     1 Sample.shop).1
  = bad_request "Quantity must be an integer.".
Proof. reflexivity. Qed.

Example purchase_missing_quantity :
  purchase 200 (mk_request POST (Some "test_key"%string) ∅ ∅) 1 Sample.shop
  = (bad_request "Quantity is required.", Sample.shop).
Proof. reflexivity. Qed.

Example purchase_unknown_product :
  purchase 200 (Sample.buy 1) 99999 Sample.shop = (not_found, Sample.shop).
Proof. reflexivity. Qed.

(** [test_purchase_product_unauthenticated] *)
Example purchase_unauthenticated :
  Permissions.dispatch (λ request, purchase 200 request 1)
    (Sample.post_quantity None (Py.JInt 1)) Sample.shop
  = (Permissions.permission_denied, Sample.shop).
Proof. reflexivity. Qed.

Example purchase_authenticated :
  status_of
    (Permissions.dispatch (λ request, purchase 200 request 1)
       (Sample.buy 1) Sample.shop).1
  = Some HTTP_200_OK.
Proof. reflexivity. Qed.

End Scenarios.

(* ===================================================================== *)
(** ** More on the purchase action *)
(* ===================================================================== *)

Module PurchaseLaws.
Import Http Models Views Catalog.

(** The two ways a purchase can end. *)
Lemma purchase_cases now request pk st :
  (status_of (purchase now request pk st).1 ≠ Some HTTP_200_OK
   ∧ (purchase now request pk st).2 = st)
  ∨ ∃ product n,
      get_object st pk = Some product
      ∧ Concurrent.quantity_of request = Some n
      ∧ 0 < n <= Product.stock_quantity product
      ∧ status_of (purchase now request pk st).1 = Some HTTP_200_OK
      ∧ (purchase now request pk st).2 =
          save now pk
            (Product.set_stock_quantity
               (Product.stock_quantity product - n) product) st.
Proof.
  unfold purchase, purchase_body, Concurrent.quantity_of.
  destruct (get_object st pk) as [product |]; [| by left].
  destruct (data request !! "quantity"%string) as [v |]; [| by left].
  destruct v as [| b | z | x | s | items | members]; try (by left);
    (destruct (Py.int _) as [n | []]; try (by left));
    (destruct (Z.leb_spec n 0); [by left |]);
    (destruct (Z.ltb_spec (Product.stock_quantity product) n); [by left |]);
    right; exists product, n; repeat split; try done; lia.
Qed.


(** X2.  Any other answer, an uncaught exception included, leaves the database
    untouched. *)
Theorem purchase_refused_no_write now request pk st :
  status_of (purchase now request pk st).1 ≠ Some HTTP_200_OK →
  (purchase now request pk st).2 = st.
Proof.
  intros Hstatus.
  destruct (PurchaseProps.purchase_store_cases now request pk st)
    as [Hsame | (product & n & _ & _ & Hok & _)]; [exact Hsame | done].
Qed.

Lemma purchase_refused_no_write_witness :
  (purchase 200 (Sample.buy 11) 1 Sample.shop).2 = Sample.shop.
Proof.
  apply (purchase_refused_no_write 200 (Sample.buy 11) 1 Sample.shop).
  by vm_compute.
Defined.

(** X3.  A purchase neither adds nor removes a product row, and writes to no
    other table, whatever the request. *)
Theorem purchase_keeps_rows now request pk st :
  dom (products (purchase now request pk st).2) = dom (products st)
  ∧ categories (purchase now request pk st).2 = categories st
  ∧ api_keys (purchase now request pk st).2 = api_keys st.
Proof.
  destruct (PurchaseProps.purchase_store_cases now request pk st)
    as [-> | (product & n & Hget & _ & _ & ->)]; [done |].
  split; [| done]. simpl. rewrite dom_insert_L.
  assert (pk ∈ dom (products st)) by (apply elem_of_dom; by eexists).
  set_solver.
Qed.

(** One call: the stock of a product goes down by what the call sold. *)
Lemma sold_step pk c st p :
  products st !! pk = Some p →
  ∃ p', products (run_call c st).2 !! pk = Some p'
        ∧ Product.stock_quantity p
          = Product.stock_quantity p' + sold pk c st
        ∧ 0 <= sold pk c st.
Proof.
  destruct c as [[now request] target]. intros Hp. unfold sold, run_call.
  destruct (purchase_cases now request target st)
    as [[Hstatus ->] | (product & n & Hget & Hq & Hn & -> & ->)].
  - exists p. split; [done |].
    destruct (status_of (purchase now request target st).1) as [status |];
      [| lia].
    destruct (Z.eqb_spec status HTTP_200_OK) as [-> | _]; [done | simpl; lia].
  - rewrite Hq. simpl.
    destruct (Z.eqb_spec target pk) as [-> | Hne].
    + unfold get_object in Hget. rewrite Hp in Hget. injection Hget as <-.
      rewrite lookup_insert_eq. eexists. split; [done |]. simpl. lia.
    + rewrite lookup_insert_ne by done. exists p. split; [done | lia].
Qed.

(** X4.  Stock accounting.  Over any sequence of purchase calls, what a product
    had in stock is what it has left plus the units the accepted calls
    asked for; so its stock never goes up. *)
Theorem stock_accounting (cs : list call) : ∀ st pk p,
  products st !! pk = Some p →
  ∃ p', products (run_purchases cs st) !! pk = Some p'
        ∧ Product.stock_quantity p
          = Product.stock_quantity p' + units_sold pk cs st
        ∧ 0 <= units_sold pk cs st.
Proof.
  induction cs as [| c cs IH]; intros st pk p Hp; simpl.
  - exists p. split; [done | lia].
  - destruct (sold_step pk c st p Hp) as (p1 & Hp1 & Hstock1 & Hsold).
    destruct (IH _ pk p1 Hp1) as (p' & Hp' & Hstock & Hrest).
    exists p'. split; [done | lia].
Qed.

Lemma stock_accounting_witness :
  ∃ p',
    products
      (run_purchases
         [(200, Sample.buy 3, 1); (201, Sample.buy 8, 1);
          (202, Sample.buy 7, 1); (203, Sample.buy 1, 6)] Sample.shop) !! 1
    = Some p'
    ∧ Product.stock_quantity Sample.animal_farm
      = Product.stock_quantity p'
        + units_sold 1
            [(200, Sample.buy 3, 1); (201, Sample.buy 8, 1);
             (202, Sample.buy 7, 1); (203, Sample.buy 1, 6)] Sample.shop
    ∧ 0 <= units_sold 1
             [(200, Sample.buy 3, 1); (201, Sample.buy 8, 1);
              (202, Sample.buy 7, 1); (203, Sample.buy 1, 6)] Sample.shop.
Proof.
  apply (stock_accounting
           [(200, Sample.buy 3, 1); (201, Sample.buy 8, 1);
            (202, Sample.buy 7, 1); (203, Sample.buy 1, 6)]
           Sample.shop 1 Sample.animal_farm).
  reflexivity.
Defined.

(** The accounting at work: 3 and 7 are sold, 8 is refused. *)
Example units_sold_sample :
  units_sold 1
    [(200, Sample.buy 3, 1); (201, Sample.buy 8, 1);
     (202, Sample.buy 7, 1); (203, Sample.buy 1, 6)] Sample.shop = 10.
Proof. reflexivity. Qed.

(** X5.  Two accepted purchases add up: when the stock covers both quantities,
    both calls are answered by 200 and the second leaves the answer and the
    database of a single purchase of the two quantities together, made at
    the time of the second call. *)
Theorem purchase_twice_adds_up
    now1 now2 request1 request2 request12 pk st product n1 n2 :
  get_object st pk = Some product →
  Concurrent.quantity_of request1 = Some n1 →
  Concurrent.quantity_of request2 = Some n2 →
  Concurrent.quantity_of request12 = Some (n1 + n2) →
  0 < n1 → 0 < n2 → n1 + n2 <= Product.stock_quantity product →
  let r1 := purchase now1 request1 pk st in
  let r2 := purchase now2 request2 pk r1.2 in
  status_of r1.1 = Some HTTP_200_OK
  ∧ status_of r2.1 = Some HTTP_200_OK
  ∧ r2 = purchase now2 request12 pk st.
Proof.
  intros Hget Hq1 Hq2 Hq12 Hn1 Hn2 Hle.
  destruct (ConcurrentProps.quantity_of_inv _ _ Hq1) as (v1 & Hv1 & Hint1).
  destruct (ConcurrentProps.quantity_of_inv _ _ Hq2) as (v2 & Hv2 & Hint2).
  destruct (ConcurrentProps.quantity_of_inv _ _ Hq12) as (v & Hv & Hint).
  pose proof (PurchaseProps.purchase_sufficient_stock now1 request1 pk st
                product v1 n1 Hget Hv1 Hint1 Hn1 ltac:(lia)) as Hr1.
  pose proof (PurchaseProps.purchase_sufficient_stock now2 request12 pk st
                product v (n1 + n2) Hget Hv Hint ltac:(lia) Hle) as Hr12.
  cbv zeta in Hr1, Hr12 |- *. rewrite Hr1, Hr12. cbn [fst snd].
  set (product1 := Product.touch now1
         (Product.set_stock_quantity
            (Product.stock_quantity product - n1) product)).
  assert (Hget1 : get_object
            (save now1 pk
               (Product.set_stock_quantity
                  (Product.stock_quantity product - n1) product) st) pk
          = Some product1) by apply lookup_insert_eq.
  pose proof (PurchaseProps.purchase_sufficient_stock now2 request2 pk _
                product1 v2 n2 Hget1 Hv2 Hint2 Hn2
                ltac:(simpl; lia)) as Hr2.
  cbv zeta in Hr2. rewrite Hr2. split; [done |]. split; [done |].
  unfold save, set_products, product1. simpl.
  rewrite insert_insert_eq.
  by replace (Product.stock_quantity product - n1 - n2)
    with (Product.stock_quantity product - (n1 + n2)) by lia.
Qed.

Lemma purchase_twice_adds_up_witness :
  let r1 := purchase 200 (Sample.buy 3) 1 Sample.shop in
  let r2 := purchase 201 (Sample.buy 4) 1 r1.2 in
  status_of r1.1 = Some HTTP_200_OK
  ∧ status_of r2.1 = Some HTTP_200_OK
  ∧ r2 = purchase 201 (Sample.buy 7) 1 Sample.shop.
Proof.
  apply (purchase_twice_adds_up 200 201 (Sample.buy 3) (Sample.buy 4)
           (Sample.buy 7) 1 Sample.shop Sample.animal_farm 3 4);
    first [reflexivity | by vm_compute].
Defined.

End PurchaseLaws.

(* ===================================================================== *)
(** ** More on concurrent purchases *)
(* ===================================================================== *)

Module ConcurrentLaws.
Import Http Models Views Concurrent Catalog.

(** What the second access of a request does to the database. *)
Lemma purchase_body_cases now request pk product st :
  (purchase_body now request pk product st).2 = st
  ∨ ∃ n, 0 < n <= Product.stock_quantity product
         ∧ (purchase_body now request pk product st).2 =
             save now pk
               (Product.set_stock_quantity
                  (Product.stock_quantity product - n) product) st.
Proof.
  unfold purchase_body.
  destruct (data request !! "quantity"%string) as [v |]; [| by left].
  destruct (Py.int v) as [n | e] eqn:Hint.
  - assert (v ≠ Py.JNull) as Hnull by (intros ->; discriminate Hint).
    destruct (Z.leb_spec n 0); [left; by destruct v |].
    destruct (Z.ltb_spec (Product.stock_quantity product) n);
      [left; by destruct v |].
    right. exists n. split; [lia |]. by destruct v.
  - left. destruct v; try done; by destruct e.
Qed.

Lemma insert_fetched (ts : list thread) (i : nat) t' :
  (∀ (j : nat) t p, ts !! j = Some t → fetched t = Some p →
     0 <= Product.stock_quantity p) →
  (∀ p, fetched t' = Some p → 0 <= Product.stock_quantity p) →
  ∀ (j : nat) t p, <[i := t']> ts !! j = Some t → fetched t = Some p →
    0 <= Product.stock_quantity p.
Proof.
  intros Hts Ht' j t p Hj Hp.
  destruct (decide (i = j)) as [<- | Hne].
  - apply list_lookup_insert_Some in Hj as [(_ & <- & _) | (Hne & _)];
      [by apply Ht' | done].
  - rewrite list_lookup_insert_ne in Hj by done. by eapply Hts.
Qed.

Lemma step_at_stocks_nonneg i s : stocks_nonneg s → stocks_nonneg (step_at i s).
Proof.
  destruct s as [st ts]. intros [Hst Hts]. unfold step_at. simpl in *.
  destruct (ts !! i) as [t |] eqn:Hi; [| by split].
  destruct t as [now request pk | now request pk product | r]; simpl.
  - destruct (get_object st pk) as [product |] eqn:Hget;
      (split; simpl; [done |]); apply insert_fetched; try done.
    intros p [= <-]. by eapply Hst.
  - assert (0 <= Product.stock_quantity product) as Hproduct
      by (by eapply Hts).
    destruct (purchase_body now request pk product st) as [r st'] eqn:Hbody.
    pose proof (purchase_body_cases now request pk product st) as Hcases.
    rewrite Hbody in Hcases. simpl in Hcases. split; simpl.
    + destruct Hcases as [-> | (n & Hn & ->)]; [done |].
      intros other p. simpl.
      destruct (decide (pk = other)) as [<- | Hne].
      * rewrite lookup_insert_eq. intros [= <-]. simpl. lia.
      * rewrite lookup_insert_ne by done. apply Hst.
    + by apply insert_fetched.
  - split; simpl; [done |]. by apply insert_fetched.
Qed.

Lemma run_stocks_nonneg schedule : ∀ s,
  stocks_nonneg s → stocks_nonneg (run schedule s).
Proof.
  induction schedule as [| i schedule IH]; intros s Hs; [done |].
  apply IH, step_at_stocks_nonneg, Hs.
Qed.

(** X6.  However the accesses of any number of purchase requests interleave, no
    stock becomes negative: each request writes what it has read minus a
    quantity that what it has read covers. *)
Theorem interleaved_stock_never_negative schedule st (ts : list thread) :
  stock_nonneg st →
  (∀ t, t ∈ ts → fetched t = None) →
  stock_nonneg (run schedule (st, ts)).1.
Proof.
  intros Hst Hts. apply run_stocks_nonneg. split; [done |].
  intros j t p Hj Hp. simpl in Hj.
  rewrite Hts in Hp by (by eapply list_elem_of_lookup_2). discriminate Hp.
Qed.

Lemma interleaved_stock_never_negative_witness :
  stock_nonneg (run [0; 1; 0; 1]%nat Sample.race).1.
Proof.
  apply (interleaved_stock_never_negative [0; 1; 0; 1]%nat Sample.shop
           [Pending 200 (Sample.buy 1) 7; Pending 201 (Sample.buy 1) 7]).
  - apply PurchaseProps.shop_stock_nonneg.
  - intros t Ht.
    apply elem_of_cons in Ht as [-> | Ht]; [done |].
    apply elem_of_cons in Ht as [-> | Ht]; [done |].
    by apply elem_of_nil in Ht.
Defined.

#[local] Arguments purchase_body : simpl never.

(** X7.  The lost update.  When two requests for the same product both load it
    before either saves, and each quantity alone is covered by the stock,
    both are answered by 200 and the stock that remains is the one the last
    writer computed: the decrement of the first is lost. *)
Theorem lost_update st pk product now1 now2 request1 request2 n1 n2 :
  get_object st pk = Some product →
  quantity_of request1 = Some n1 →
  quantity_of request2 = Some n2 →
  0 < n1 <= Product.stock_quantity product →
  0 < n2 <= Product.stock_quantity product →
  let s := run [0; 1; 0; 1]%nat
             (st, [Pending now1 request1 pk; Pending now2 request2 pk]) in
  succeeded <$> s.2 = [true; true]
  ∧ Product.stock_quantity <$> get_object s.1 pk
    = Some (Product.stock_quantity product - n2).
Proof.
  intros Hget Hq1 Hq2 Hn1 Hn2.
  destruct (ConcurrentProps.quantity_of_inv _ _ Hq1) as (v1 & Hv1 & Hint1).
  destruct (ConcurrentProps.quantity_of_inv _ _ Hq2) as (v2 & Hv2 & Hint2).
  assert (Hbody : ∀ now request v n st',
            data request !! "quantity"%string = Some v →
            Py.int v = Py.IntOk n →
            0 < n <= Product.stock_quantity product →
            purchase_body now request pk product st' =
              (Response
                 (ProductData pk
                    (Product.touch now
                       (Product.set_stock_quantity
                          (Product.stock_quantity product - n) product)))
                 HTTP_200_OK,
               save now pk
                 (Product.set_stock_quantity
                    (Product.stock_quantity product - n) product) st')).
  { intros now request v n st' Hv Hint Hn.
    rewrite (PurchaseProps.purchase_body_int _ _ _ _ _ _ _ Hv Hint).
    destruct (Z.leb_spec n 0); [lia |].
    by destruct (Z.ltb_spec (Product.stock_quantity product) n); [lia |]. }
  unfold run, step_at. simpl.
  repeat (rewrite Hget; simpl).
  rewrite (Hbody _ _ _ _ _ Hv1 Hint1 Hn1). simpl.
  rewrite (Hbody _ _ _ _ _ Hv2 Hint2 Hn2). simpl.
  split; [done |].
  unfold get_object. simpl. by rewrite lookup_insert_eq.
Qed.

Lemma lost_update_witness :
  let s := run [0; 1; 0; 1]%nat
             (Sample.shop,
              [Pending 200 (Sample.buy 4) 1; Pending 201 (Sample.buy 3) 1]) in
  succeeded <$> s.2 = [true; true]
  ∧ Product.stock_quantity <$> get_object s.1 1 = Some (10 - 3).
Proof.
  apply (lost_update Sample.shop 1 Sample.animal_farm 200 201
           (Sample.buy 4) (Sample.buy 3) 4 3);
    first [reflexivity | by vm_compute].
Defined.

End ConcurrentLaws.

(* ===================================================================== *)
(** ** More on the access-control gate *)
(* ===================================================================== *)

Module GateLaws.
Import Http Models Permissions Views.

(** X8.  With a valid API key every request reaches its handler, whatever its
    method; a safe method reaches it even with a key that is not valid. *)
Theorem valid_key_or_safe_method_passes
    (handler : request → store → result * store) request st :
  (∃ key, api_key request = Some key ∧ key ∈ api_keys st)
  ∨ method_of request ∈ SAFE_METHODS →
  dispatch handler request st = handler request st.
Proof.
  intros Hpass. unfold dispatch, has_permission, HasAPIKey.
  destruct (bool_decide (method_of request ∈ SAFE_METHODS)) eqn:Hsafe;
    [done |].
  destruct Hpass as [(key & -> & Hkey) | Hmethod].
  - by rewrite bool_decide_true.
  - apply bool_decide_eq_false in Hsafe. done.
Qed.

Lemma valid_key_or_safe_method_passes_witness :
  dispatch (λ request, purchase 200 request 1) (Sample.buy 3) Sample.shop
  = purchase 200 (Sample.buy 3) 1 Sample.shop.
Proof.
  apply (valid_key_or_safe_method_passes
           (λ request, purchase 200 request 1) (Sample.buy 3) Sample.shop).
  left. exists "test_key"%string. split; [reflexivity | set_solver].
Defined.

(** X9.  A purchase, allowed or not, does not change what the gate decides for
    any later request: the issued keys are not written. *)
Theorem purchase_keeps_permissions now request pk st later :
  has_permission later
    (dispatch (λ request, purchase now request pk) request st).2
  = has_permission later st.
Proof.
  assert (api_keys
            (dispatch (λ request, purchase now request pk) request st).2
          = api_keys st) as Hkeys.
  { unfold dispatch. destruct (has_permission request st); [| done].
    by destruct (PurchaseLaws.purchase_cases now request pk st)
      as [[_ ->] | (product & n & _ & _ & _ & _ & ->)]. }
  unfold has_permission, HasAPIKey. by rewrite Hkeys.
Qed.

End GateLaws.

(* ===================================================================== *)
(** ** More on the filters *)
(* ===================================================================== *)

Module FilterLaws.
Import Http Models Filters Views Catalog.

Lemma filter_filter {A} (f g : A → bool) (l : list A) :
  List.filter g (List.filter f l) = List.filter (λ x, f x && g x) l.
Proof.
  induction l as [| x l IH]; [done |]. simpl.
  destruct (f x); simpl; [| exact IH]. destruct (g x); by rewrite IH.
Qed.

Lemma filter_true {A} (l : list A) : List.filter (λ _, true) l = l.
Proof. induction l as [| x l IH]; [done |]. simpl. by rewrite IH. Qed.

(** The whole filter set is one row-by-row test. *)
Lemma filter_queryset_pointwise cd :
  ∃ test : Z * Product.t → bool,
    ∀ qs, filter_queryset cd qs = List.filter test qs.
Proof.
  assert (Hstage : ∀ (stage : queryset → queryset),
            (∃ g, ∀ qs, stage qs = List.filter g qs) →
            ∀ (prev : queryset → queryset),
              (∃ f, ∀ qs, prev qs = List.filter f qs) →
              ∃ h, ∀ qs, stage (prev qs) = List.filter h qs).
  { intros stage [g Hg] prev [f Hf]. exists (λ x, f x && g x).
    intros qs. by rewrite Hg, Hf, filter_filter. }
  assert (Hid : ∃ f : Z * Product.t → bool,
            ∀ qs : queryset, qs = List.filter f qs).
  { exists (λ _, true). intros qs. by rewrite filter_true. }
  unfold filter_queryset.
  apply (Hstage (filter_is_featured (is_featured cd)));
    [unfold filter_is_featured; destruct (is_featured cd); eauto |].
  apply (Hstage (filter_available_method (available cd)));
    [unfold filter_available_method, filter_available;
     destruct (available cd) as [[] |]; eauto |].
  apply (Hstage (filter_category (category cd)));
    [unfold filter_category; destruct (category cd); eauto |].
  apply (Hstage (filter_max_price (max_price cd)));
    [unfold filter_max_price; destruct (max_price cd); eauto |].
  apply (Hstage (filter_min_price (min_price cd)));
    [unfold filter_min_price; destruct (min_price cd); eauto |].
  unfold filter_name. destruct (String.eqb (name cd) ""); eauto.
Qed.

(** X10.  Filtering keeps the rows it selects in the order they had, invents or
    repeats none, treats each row on its own, and filtering again with the
    same values changes nothing. *)
Theorem filter_queryset_stable cd qs qs' :
  sublist (filter_queryset cd qs) qs
  ∧ filter_queryset cd (qs ++ qs')
    = filter_queryset cd qs ++ filter_queryset cd qs'
  ∧ filter_queryset cd (filter_queryset cd qs) = filter_queryset cd qs.
Proof.
  split; [apply FilterProps.filter_queryset_sublist |].
  destruct (filter_queryset_pointwise cd) as [test Htest].
  rewrite !Htest. split; [apply List.filter_app |].
  rewrite filter_filter. apply filter_ext. intros r. by destruct (test r).
Qed.

Lemma filter_partition {A} (f g : A → bool) (l : list A) :
  (∀ x, x ∈ l → g x = negb (f x)) →
  List.filter f l ++ List.filter g l ≡ₚ l.
Proof.
  induction l as [| x l IH]; intros Hfg; [done |]. simpl.
  rewrite (Hfg x) by left.
  assert (List.filter f l ++ List.filter g l ≡ₚ l) as Hl
    by (apply IH; intros y Hy; apply Hfg; by right).
  destruct (f x); simpl.
  - by rewrite Hl.
  - by rewrite <- Permutation_middle, Hl.
Qed.

(** X11.  [available=true] and [available=false] split the rows in two: as long
    as no stock is negative, every row is in exactly one of the two
    answers. *)
Theorem filter_available_partition (qs : queryset) :
  (∀ r, r ∈ qs → 0 <= Product.stock_quantity r.2) →
  filter_available qs true ++ filter_available qs false ≡ₚ qs
  ∧ ∀ r, ¬ (r ∈ filter_available qs true ∧ r ∈ filter_available qs false).
Proof.
  intros Hstock. split.
  - unfold filter_available. apply filter_partition.
    intros r Hr. specialize (Hstock r Hr).
    destruct (Z.ltb_spec 0 (Product.stock_quantity r.2)),
      (Z.eqb_spec (Product.stock_quantity r.2) 0); simpl; try done; lia.
  - intros r [Htrue Hfalse].
    apply FilterProps.filter_available_spec in Htrue as [_ Htrue].
    apply FilterProps.filter_available_spec in Hfalse as [_ Hfalse]. lia.
Qed.

Lemma filter_available_partition_witness :
  filter_available (all Sample.shop) true
    ++ filter_available (all Sample.shop) false ≡ₚ all Sample.shop
  ∧ ∀ r, ¬ (r ∈ filter_available (all Sample.shop) true
            ∧ r ∈ filter_available (all Sample.shop) false).
Proof.
  apply (filter_available_partition (all Sample.shop)).
  intros [pk p] Hr. apply FilterProps.elem_of_all in Hr.
  by apply (PurchaseProps.shop_stock_nonneg pk p).
Defined.

(** X12.  A price range whose lower bound is above its upper bound selects
    nothing. *)
Theorem empty_price_range cd qs lo hi :
  min_price cd = Some lo → max_price cd = Some hi → (hi < lo)%Q →
  filter_queryset cd qs = [].
Proof.
  intros Hlo Hhi Hlt. apply elem_of_nil_inv. intros r Hr.
  apply FilterProps.filter_queryset_spec in Hr
    as [_ (_ & Hmin & Hmax & _)].
  specialize (Hmin lo Hlo). specialize (Hmax hi Hhi).
  apply (Qlt_irrefl lo). eapply Qle_lt_trans; [| exact Hlt].
  by eapply Qle_trans.
Qed.

Lemma empty_price_range_witness :
  filter_queryset (mk_cleaned "" (Some (20 # 1)) (Some (10 # 1)) None None None)
    (all Sample.shop) = [].
Proof.
  apply (empty_price_range _ _ (20 # 1) (10 # 1)); first [reflexivity].
Defined.

End FilterLaws.

(* ===================================================================== *)
(** ** More on the list action *)
(* ===================================================================== *)

Module ListLaws.
Import Http Models Filters Views Catalog.

Section WithForms.
Context `{Forms}.

(** X13.  Without any query parameter the list action answers with every product
    of the table, once each, in the order of the names. *)
Theorem list_action_all request st :
  query_params request = ∅ →
  list_action request st = Response (ProductList (all st)) HTTP_200_OK
  ∧ length (all st) = size (products st)
  ∧ (∀ pk p, (pk, p) ∈ all st ↔ products st !! pk = Some p)
  ∧ StronglySorted
      (λ r1 r2, String.compare (Product.name r1.2) (Product.name r2.2) ≠ Gt)
      (all st).
Proof.
  intros Hqp. split_and!.
  - unfold list_action, django_filter_backend, clean, decimal_param,
      boolean_param, char_param, ordering_filter, get_ordering.
    rewrite Hqp, !lookup_empty. reflexivity.
  - unfold all. rewrite FilterProps.order_by_perm. apply length_map_to_list.
  - apply FilterProps.elem_of_all.
  - apply (OrderingProps.order_by_sorted "name").
Qed.

(** X14.  The [ordering] parameter changes the order of the answer and nothing
    else: the same rows come back, as many times. *)
Theorem ordering_keeps_rows request st value rows :
  list_action request st = Response (ProductList rows) HTTP_200_OK →
  ∃ rows',
    list_action (set_param "ordering" value request) st
    = Response (ProductList rows') HTTP_200_OK
    ∧ rows' ≡ₚ rows.
Proof.
  intros Hrun.
  destruct (OrderingProps.list_action_rows _ _ _ Hrun) as [cd ->].
  unfold list_action, django_filter_backend in *.
  assert (clean (query_params (set_param "ordering" value request))
          = clean (query_params request)) as Hclean.
  { unfold clean, decimal_param, boolean_param, char_param, set_param.
    simpl. by rewrite !lookup_insert_ne by done. }
  rewrite Hclean.
  destruct (clean (query_params request)) as [cd' |]; [| discriminate Hrun].
  eexists. split; [reflexivity |].
  injection Hrun as Hrows.
  rewrite FilterProps.ordering_filter_perm.
  rewrite <- Hrows. by rewrite FilterProps.ordering_filter_perm.
Qed.

End WithForms.

Lemma list_action_all_witness :
  @list_action literal_forms (Sample.get_products []) Sample.shop
  = Response (ProductList (all Sample.shop)) HTTP_200_OK
  ∧ length (all Sample.shop) = size (products Sample.shop)
  ∧ (∀ pk p, (pk, p) ∈ all Sample.shop ↔ products Sample.shop !! pk = Some p)
  ∧ StronglySorted
      (λ r1 r2, String.compare (Product.name r1.2) (Product.name r2.2) ≠ Gt)
      (all Sample.shop).
Proof.
  apply (@list_action_all literal_forms (Sample.get_products []) Sample.shop).
  reflexivity.
Defined.

Lemma ordering_keeps_rows_witness :
  ∃ rows',
    @list_action literal_forms
      (set_param "ordering" "-price"
         (Sample.get_products [("available", "true")]%string)) Sample.shop
    = Response (ProductList rows') HTTP_200_OK
    ∧ rows' ≡ₚ [(1, Sample.animal_farm); (4, Sample.charger);
                (7, Sample.last_copy); (3, Sample.macbeth)].
Proof.
  apply (@ordering_keeps_rows literal_forms
           (Sample.get_products [("available", "true")]%string) Sample.shop
           "-price").
  reflexivity.
Defined.

(** X15.  After an accepted purchase the product is still listed as available
    exactly when the purchase left some stock, and is listed as not
    available exactly when it took all of it. *)
Theorem availability_after_purchase now request pk st product n :
  get_object st pk = Some product →
  Concurrent.quantity_of request = Some n →
  0 < n <= Product.stock_quantity product →
  let st' := (purchase now request pk st).2 in
  ((∃ p, (pk, p) ∈ filter_available (all st') true)
     ↔ n < Product.stock_quantity product)
  ∧ ((∃ p, (pk, p) ∈ filter_available (all st') false)
     ↔ n = Product.stock_quantity product).
Proof.
  intros Hget Hq Hn.
  destruct (ConcurrentProps.quantity_of_inv _ _ Hq) as (v & Hv & Hint).
  pose proof (PurchaseProps.purchase_sufficient_stock now request pk st
                product v n Hget Hv Hint ltac:(lia) ltac:(lia)) as Hrun.
  cbv zeta in Hrun |- *. rewrite Hrun. cbn [snd].
  split; split.
  - intros [p Hp]. apply FilterProps.filter_available_spec in Hp as [Hp Hs].
    apply FilterProps.elem_of_all in Hp. simpl in Hp, Hs.
    rewrite lookup_insert_eq in Hp. injection Hp as <-. simpl in Hs. lia.
  - intros Hlt. eexists. apply FilterProps.filter_available_spec.
    split; [apply FilterProps.elem_of_all, lookup_insert_eq |]. simpl. lia.
  - intros [p Hp]. apply FilterProps.filter_available_spec in Hp as [Hp Hs].
    apply FilterProps.elem_of_all in Hp. simpl in Hp, Hs.
    rewrite lookup_insert_eq in Hp. injection Hp as <-. simpl in Hs. lia.
  - intros Heq. eexists. apply FilterProps.filter_available_spec.
    split; [apply FilterProps.elem_of_all, lookup_insert_eq |]. simpl. lia.
Qed.

Lemma availability_after_purchase_witness :
  let st' := (purchase 200 (Sample.buy 10) 1 Sample.shop).2 in
  ((∃ p, (1, p) ∈ filter_available (all st') true) ↔ 10 < 10)
  ∧ ((∃ p, (1, p) ∈ filter_available (all st') false) ↔ 10 = 10).
Proof.
  apply (availability_after_purchase 200 (Sample.buy 10) 1 Sample.shop
           Sample.animal_farm 10);
    first [reflexivity | by vm_compute].
Defined.

End ListLaws.

(* ===================================================================== *)
(** ** More on the ordering *)
(* ===================================================================== *)

Module OrderingLaws.
Import Http Models Filters Views.

(** X16.  Only the fields of [ordering_fields] can order the answer: every term
    that [get_ordering] lets through is one of the terms of the parameter
    and names, after its optional minus sign, a declared field. *)
Theorem get_ordering_whitelist (qp : gmap string string) term :
  term ∈ get_ordering qp →
  field_of_term term ∈ ordering_fields
  ∧ ∃ params, qp !! "ordering"%string = Some params
              ∧ term ∈ Py.strip <$> Py.split_comma params.
Proof.
  unfold get_ordering.
  destruct (qp !! "ordering"%string) as [params |];
    [| intros Hin; by apply elem_of_nil in Hin].
  destruct (String.eqb params ""); [intros Hin; by apply elem_of_nil in Hin |].
  unfold remove_invalid_fields. rewrite FilterProps.elem_of_filter_bool.
  intros [Hin Hvalid]. split.
  - by apply bool_decide_eq_true in Hvalid.
  - by exists params.
Qed.

Lemma get_ordering_whitelist_witness :
  field_of_term "-price" ∈ ordering_fields
  ∧ ∃ params,
      ({[ "ordering" := "id, -price,password" ]} : gmap string string)
        !! "ordering"%string = Some params
      ∧ "-price"%string ∈ Py.strip <$> Py.split_comma params.
Proof.
  apply (get_ordering_whitelist
           ({[ "ordering" := "id, -price,password" ]} : gmap string string)%string
           "-price").
  vm_compute. by left.
Defined.







(** By stock, then by falling price. *)
Example order_by_two_terms :
  (λ r : Z * Product.t, r.1)
    <$> order_by ["stock_quantity"; "-price"]%string (all Sample.shop)
  = [6; 7; 3; 1; 4].
Proof. reflexivity. Qed.

End OrderingLaws.

(* ===================================================================== *)
(** ** The constraints of the tables *)
(* ===================================================================== *)

Module CatalogLaws.
Import Http Models Filters Views Catalog.

Lemma SET_NULL_category c p :
  Product.category (SET_NULL c p)
  = if decide (Product.category p = Some c) then None else Product.category p.
Proof.
  unfold SET_NULL. destruct (Product.category p) as [c' |] eqn:Hc.
  - destruct (Z.eqb_spec c' c) as [-> | Hne]; simpl.
    + by rewrite decide_True.
    + rewrite decide_False by congruence. done.
  - by rewrite decide_False.
Qed.




(** X19.  No dangling reference: if every product pointed to an existing category
    or to none, this is still so after [destroy], whether the category
    existed (204) or not (404). *)
Theorem destroy_keeps_references_valid c st :
  references_valid st → references_valid (destroy c st).2.
Proof.
  intros Hvalid. unfold destroy.
  destruct (categories st !! c) as [cat |] eqn:Hcat; [| exact Hvalid].
  intros pk p' c'. simpl. rewrite lookup_fmap.
  destruct (products st !! pk) as [p |] eqn:Hp; [| discriminate].
  intros [= <-]. rewrite SET_NULL_category.
  case_decide as Hc; [discriminate |].
  intros Hc'. rewrite lookup_delete_ne by congruence.
  by apply (Hvalid pk p c').
Qed.

Lemma shop_references_valid : references_valid Sample.shop.
Proof.
  intros pk p c. unfold Sample.shop. simpl.
  repeat (rewrite lookup_insert; case_decide;
          [intros [= <-]; simpl; intros Hc;
           first [discriminate Hc
                 | injection Hc as <-; eexists; reflexivity] |]).
  rewrite lookup_empty. discriminate.
Qed.

Lemma destroy_keeps_references_valid_witness :
  references_valid (destroy 2 Sample.shop).2.
Proof.
  apply (destroy_keeps_references_valid 2 Sample.shop shop_references_valid).
Defined.

(** X20.  Once a category is deleted, filtering the list by it selects nothing. *)
Theorem deleted_category_selects_nothing c cat st :
  categories st !! c = Some cat →
  filter_category (Some (inject_Z c)) (all (destroy c st).2) = [].
Proof.
  intros Hcat. apply elem_of_nil_inv. intros [pk p'] Hr.
  apply FilterProps.filter_category_spec in Hr as [Hrow Hmatch].
  destruct (Hmatch _ eq_refl) as (c' & Hc' & Heq). simpl in Hc'.
  apply FilterProps.elem_of_all in Hrow.
  unfold destroy in Hrow. rewrite Hcat in Hrow. simpl in Hrow.
  rewrite lookup_fmap in Hrow.
  destruct (products st !! pk) as [p |]; [| discriminate Hrow].
  injection Hrow as <-. rewrite SET_NULL_category in Hc'.
  case_decide as Hc; [discriminate Hc' |].
  apply Hc. rewrite Hc'. f_equal.
  unfold Qeq in Heq. simpl in Heq. lia.
Qed.

Lemma deleted_category_selects_nothing_witness :
  filter_category (Some (inject_Z 2)) (all (destroy 2 Sample.shop).2) = [].
Proof.
  apply (deleted_category_selects_nothing 2 Sample.electronics Sample.shop).
  reflexivity.
Defined.

(** A purchase keeps the constraints of the product table: names stay
    unique and every category reference stays valid. *)
Lemma purchase_keeps_constraints now request pk st :
  names_unique st ∧ references_valid st →
  names_unique (purchase now request pk st).2
  ∧ references_valid (purchase now request pk st).2.
Proof.
  intros [Hnames Hrefs].
  destruct (PurchaseLaws.purchase_cases now request pk st)
    as [[_ ->] | (product & n & Hget & _ & _ & _ & ->)]; [done |].
  unfold get_object in Hget.
  assert (Hrow : ∀ other p', <[pk := Product.touch now
                       (Product.set_stock_quantity
                          (Product.stock_quantity product - n) product)]>
                    (products st) !! other = Some p' →
            ∃ p, products st !! other = Some p
                 ∧ Product.name p' = Product.name p
                 ∧ Product.category p' = Product.category p).
  { intros other p'. destruct (decide (pk = other)) as [<- | Hne].
    - rewrite lookup_insert_eq. intros [= <-]. by exists product.
    - rewrite lookup_insert_ne by done. intros Hp'. by exists p'. }
  split.
  - intros pk1 pk2 p1 p2 Hp1 Hp2 Heq. simpl in Hp1, Hp2.
    apply Hrow in Hp1 as (q1 & Hq1 & Hn1 & _).
    apply Hrow in Hp2 as (q2 & Hq2 & Hn2 & _).
    apply (Hnames pk1 pk2 q1 q2 Hq1 Hq2). congruence.
  - intros other p' c Hp' Hc. simpl in Hp'.
    apply Hrow in Hp' as (q & Hq & _ & Hcat).
    apply (Hrefs other q c Hq). congruence.
Qed.

(** X21.  The constraints of the product table survive any sequence of purchase
    requests: product names stay unique, category references stay valid. *)
Theorem purchases_keep_constraints (cs : list call) : ∀ st,
  names_unique st ∧ references_valid st →
  names_unique (run_purchases cs st)
  ∧ references_valid (run_purchases cs st).
Proof.
  induction cs as [| [[now request] pk] cs IH]; intros st Hst; [done |].
  simpl. by apply IH, purchase_keeps_constraints.
Qed.

Lemma shop_names_unique : names_unique Sample.shop.
Proof.
  intros pk1 pk2 p1 p2. unfold Sample.shop. simpl.
  repeat (rewrite lookup_insert; case_decide;
          [intros [= <-] |]);
    try (rewrite lookup_empty; discriminate);
    repeat (rewrite lookup_insert; case_decide;
            [intros [= <-] |]);
    try (rewrite lookup_empty; discriminate);
    first [congruence | intros Hname; by vm_compute in Hname].
Qed.

Lemma purchases_keep_constraints_witness :
  names_unique
    (run_purchases [(200, Sample.buy 3, 1); (201, Sample.buy 8, 1)]
       Sample.shop)
  ∧ references_valid
      (run_purchases [(200, Sample.buy 3, 1); (201, Sample.buy 8, 1)]
         Sample.shop).
Proof.
  apply (purchases_keep_constraints
           [(200, Sample.buy 3, 1); (201, Sample.buy 8, 1)] Sample.shop).
  split; [apply shop_names_unique | apply shop_references_valid].
Defined.

End CatalogLaws.
